(** * herald-webservice: the user authentication middleware

    A shallow embedding of [middleware/auth.js]: the symmetric
    encrypt/decrypt wrappers, the digest, the upstream authentication
    wrapper [auth] and the middleware itself ([module.exports]), with the
    record store, the clock, the entropy source and the upstream providers
    made explicit.

    JavaScript strings are modelled as [string]; [undefined] request
    fields are modelled as [None]; [async]/[await] is sequential inside one
    request, so a request is a state-and-exception computation over the
    world it runs in. *)

From Stdlib Require Import String Ascii List Bool ZArith NArith Lia PrimFloat.
Import ListNotations.

Local Open Scope string_scope.
Local Open Scope Z_scope.

(** ** JavaScript values that are thrown, and computations that may throw *)

(** What a [throw] carries in this module: a number ([throw 405],
    [throw 401]), a string (the missing-platform message), or an [Error]
    object raised by the runtime or by a library (named by its class). *)
Inductive Thrown : Type :=
| ThrowNum (n : Z)
| ThrowStr (s : string)
| ThrowError (class : string).

Inductive Exc (A : Type) : Type :=
| Ok (a : A)
| Throw (e : Thrown).

Arguments Ok {A} a.
Arguments Throw {A} e.

Definition exc_bind {A B : Type} (c : Exc A) (k : A -> Exc B) : Exc B :=
  match c with
  | Ok a => k a
  | Throw e => Throw e
  end.

(** [try { body } catch (e) { handler e }] for code without side effects. *)
Definition try_catch {A : Type} (body : Exc A) (handler : Thrown -> Exc A) : Exc A :=
  match body with
  | Ok a => Ok a
  | Throw e => handler e
  end.

(** [e === 401] *)
Definition is_401 (e : Thrown) : bool :=
  match e with
  | ThrowNum n => n =? 401
  | _ => false
  end.

(** ** Strings *)

(** Truthiness of a string: only the empty string is falsy. *)
Definition truthy (s : string) : bool := negb (s =? "")%string.

(** [a || b] on a possibly [undefined] string [a] and a string [b]. *)
Definition or_default (a : option string) (b : string) : string :=
  match a with
  | Some s => if truthy s then s else b
  | None => b
  end.

Definition to_upper_ascii (c : ascii) : ascii :=
  let n := N_of_ascii c in
  if ((97 <=? n) && (n <=? 122))%N then ascii_of_N (n - 32) else c.

(** [String.prototype.toUpperCase], on the ASCII letters an HTTP method
    is made of. *)
Fixpoint toUpperCase (s : string) : string :=
  match s with
  | EmptyString => EmptyString
  | String c rest => String (to_upper_ascii c) (toUpperCase rest)
  end.

(** [\d] *)
Definition is_digit (c : ascii) : bool :=
  let n := N_of_ascii c in ((48 <=? n) && (n <=? 57))%N.

Fixpoint all_digits (s : string) : bool :=
  match s with
  | EmptyString => true
  | String c rest => is_digit c && all_digits rest
  end.

(** [/^22/.test(cardnum)] *)
Definition test_22 (cardnum : string) : bool :=
  match cardnum with
  | String a (String b _) => (a =? "2")%char && (b =? "2")%char
  | _ => false
  end.

(** [/^22\d*(\d{6})$/.test(cardnum)], returning the capture [RegExp.$1]
    when the test succeeds: after the prefix every character is a digit,
    there are at least six of them, and the group holds the last six. *)
Definition match_graduate (cardnum : string) : option string :=
  match cardnum with
  | String a (String b rest) =>
      if (a =? "2")%char && (b =? "2")%char
         && all_digits rest && (6 <=? String.length rest)%nat
      then Some (substring (String.length rest - 6) 6 rest)
      else None
  | _ => None
  end.

(** ** Hexadecimal encoding ([Buffer.toString('hex')]) *)

Definition hex_digit (n : N) : ascii :=
  if (n <? 10)%N then ascii_of_N (48 + n) else ascii_of_N (87 + n).

Fixpoint to_hex (bytes : string) : string :=
  match bytes with
  | EmptyString => EmptyString
  | String c rest =>
      let n := N_of_ascii c in
      String (hex_digit (n / 16)) (String (hex_digit (n mod 16)) (to_hex rest))
  end.

Definition hex_value (c : ascii) : option N :=
  let n := N_of_ascii c in
  if ((48 <=? n) && (n <=? 57))%N then Some (n - 48)%N
  else if ((97 <=? n) && (n <=? 102))%N then Some (n - 87)%N
  else if ((65 <=? n) && (n <=? 70))%N then Some (n - 55)%N
  else None.

Fixpoint from_hex (s : string) : option string :=
  match s with
  | EmptyString => Some EmptyString
  | String hi (String lo rest) =>
      match hex_value hi, hex_value lo, from_hex rest with
      | Some h, Some l, Some bytes => Some (String (ascii_of_N (16 * h + l)) bytes)
      | _, _, _ => None
      end
  | String _ EmptyString => None
  end.

(** ** The data model *)

(** A row of the [auth] table, as [db.auth.insert] writes it. *)
Record AuthRecord : Type := mkAuthRecord {
  cardnum : string;
  tokenHash : string;
  tokenEncrypted : string;
  passwordEncrypted : string;
  passwordHash : string;
  gpasswordEncrypted : string;
  name : string;
  schoolnum : string;
  platform : string;
  registered : Z;
  lastInvoked : Z
}.

(** A filter object: the fields that are present must be equal. The code
    uses [{ cardnum, platform }] and [{ tokenHash }]. *)
Record Filter : Type := mkFilter {
  f_cardnum : option string;
  f_platform : option string;
  f_tokenHash : option string
}.

Definition by_cardnum_platform (c p : string) : Filter :=
  mkFilter (Some c) (Some p) None.

Definition by_tokenHash (h : string) : Filter :=
  mkFilter None None (Some h).

(** A patch object: the fields that are present are overwritten. *)
Record Patch : Type := mkPatch {
  set_passwordEncrypted : option string;
  set_gpasswordEncrypted : option string;
  set_tokenEncrypted : option string;
  set_passwordHash : option string;
  set_lastInvoked : option Z
}.

Definition field_matches (want : option string) (have : string) : bool :=
  match want with
  | Some v => (v =? have)%string
  | None => true
  end.

Definition matches (f : Filter) (r : AuthRecord) : bool :=
  field_matches (f_cardnum f) (cardnum r)
  && field_matches (f_platform f) (platform r)
  && field_matches (f_tokenHash f) (tokenHash r).

Definition overwrite {A : Type} (new : option A) (old : A) : A :=
  match new with
  | Some v => v
  | None => old
  end.

Definition apply_patch (p : Patch) (r : AuthRecord) : AuthRecord :=
  mkAuthRecord
    (cardnum r)
    (tokenHash r)
    (overwrite (set_tokenEncrypted p) (tokenEncrypted r))
    (overwrite (set_passwordEncrypted p) (passwordEncrypted r))
    (overwrite (set_passwordHash p) (passwordHash r))
    (overwrite (set_gpasswordEncrypted p) (gpasswordEncrypted r))
    (name r)
    (schoolnum r)
    (platform r)
    (registered r)
    (overwrite (set_lastInvoked p) (lastInvoked r)).

(** What an upstream provider returns on success; the graduate provider's
    result is discarded by the caller. *)
Record Profile : Type := mkProfile {
  prof_name : string;
  prof_schoolnum : string
}.

(** One call that reached an upstream provider, kept in the order made:
    the call count on the gateway. *)
Inductive UpstreamCall : Type :=
| CallGraduate (subid gpassword : string)
| CallPrimary (cardnum password : string).

(** The world a request runs in: the [auth] table, the wall clock read by
    [new Date().getTime()], the number of draws made from
    [crypto.randomBytes], and the log of upstream calls. *)
Record World : Type := mkWorld {
  auth_table : list AuthRecord;
  clock : Z;
  draws : nat;
  upstream_log : list UpstreamCall
}.

(** The fields of an authenticated [ctx.user]. *)
Record UserInfo : Type := mkUserInfo {
  u_token : string;
  u_identity : string;
  u_cardnum : string;
  u_password : string;
  u_gpassword : string;
  u_name : string;
  u_schoolnum : string;
  u_platform : string
}.

(** [ctx.user]: either the authenticated object, whose [encrypt] and
    [decrypt] are bound to the raw token [key], or the guest object whose
    accessors reject. *)
Inductive User : Type :=
| LoginUser (key : string) (info : UserInfo)
| GuestUser.

(** [ctx.user.isLogin], a plain data property on both objects. *)
Definition isLogin (u : User) : bool :=
  match u with
  | LoginUser _ _ => true
  | GuestUser => false
  end.

(** [ctx.useAuthCookie]: [auth] bound to the context and the decrypted
    credentials, or [reject]. *)
Inductive AuthCookie : Type :=
| BoundAuth (cardnum password gpassword : string)
| RejectCookie.

Record Params : Type := mkParams {
  p_cardnum : string;
  p_password : string;
  p_gpassword : option string;
  p_platform : option string
}.

(** The request context: what the middleware reads ([path], [method],
    [params], [request.headers.token]) and what it writes ([body],
    [user], [useAuthCookie]). *)
Record Ctx : Type := mkCtx {
  path : string;
  method : string;
  params : Params;
  headers_token : option string;
  body : option string;
  user : option User;
  useAuthCookie : option AuthCookie
}.

Definition set_body (ctx : Ctx) (b : string) : Ctx :=
  mkCtx (path ctx) (method ctx) (params ctx) (headers_token ctx)
        (Some b) (user ctx) (useAuthCookie ctx).

Definition set_user (ctx : Ctx) (u : User) : Ctx :=
  mkCtx (path ctx) (method ctx) (params ctx) (headers_token ctx)
        (body ctx) (Some u) (useAuthCookie ctx).

Definition set_useAuthCookie (ctx : Ctx) (c : AuthCookie) : Ctx :=
  mkCtx (path ctx) (method ctx) (params ctx) (headers_token ctx)
        (body ctx) (user ctx) (Some c).

(** ** Requests as computations over the world *)

Definition M (A : Type) : Type := World -> Exc A * World.

Definition ret {A : Type} (a : A) : M A := fun w => (Ok a, w).

Definition bind {A B : Type} (c : M A) (k : A -> M B) : M B :=
  fun w =>
    match c w with
    | (Ok a, w') => k a w'
    | (Throw e, w') => (Throw e, w')
    end.

Definition throw {A : Type} (e : Thrown) : M A := fun w => (Throw e, w).

(** A computation without side effects, run inside a request. *)
Definition lift {A : Type} (c : Exc A) : M A := fun w => (c, w).

(** [try { body } catch (e) { handler e }]: the world keeps what [body]
    did before it threw. *)
Definition try_catchM {A : Type} (body : M A) (handler : Thrown -> M A) : M A :=
  fun w =>
    match body w with
    | (Ok a, w') => (Ok a, w')
    | (Throw e, w') => handler e w'
    end.

Declare Scope js_scope.
Delimit Scope js_scope with js.
Notation "x <- c ;; k" := (bind c (fun x => k))
  (at level 61, c at next level, right associativity) : js_scope.
Notation "c ;; k" := (bind c (fun _ => k))
  (at level 61, right associativity) : js_scope.
Local Open Scope js_scope.

(** [new Date().getTime()] *)
Definition get_time : M Z := fun w => (Ok (clock w), w).

Definition with_table (w : World) (t : list AuthRecord) : World :=
  mkWorld t (clock w) (draws w) (upstream_log w).

(** ** The record store

    Modelled from the spec: the module [../database/auth], which this
    file only imports. The store adapter offers four operations over AuthRecord
    with partial-field equality filters: [find(filter, limit)] returns a
    record or null, [insert(record)] adds a record, [update(filter,
    patch)] overwrites the patched fields of the matching records,
    [remove(filter)] deletes the matching records. The table is kept as a
    list in insertion order and [find] with limit 1 returns the first
    match. *)

Definition db_auth_find (f : Filter) : M (option AuthRecord) :=
  fun w => (Ok (List.find (matches f) (auth_table w)), w).

Definition db_auth_insert (r : AuthRecord) : M unit :=
  fun w => (Ok tt, with_table w (auth_table w ++ [r])).

Definition update_rows (f : Filter) (p : Patch) (t : list AuthRecord) : list AuthRecord :=
  map (fun r => if matches f r then apply_patch p r else r) t.

Definition db_auth_update (f : Filter) (p : Patch) : M unit :=
  fun w => (Ok tt, with_table w (update_rows f p (auth_table w))).

Definition remove_rows (f : Filter) (t : list AuthRecord) : list AuthRecord :=
  filter (fun r => negb (matches f r)) t.

Definition db_auth_remove (f : Filter) : M unit :=
  fun w => (Ok tt, with_table w (remove_rows f (auth_table w))).

(** ** What the module imports *)

Notation "x <~ c ;; k" := (exc_bind c (fun x => k))
  (at level 61, c at next level, right associativity) : js_scope.

(** Node's [crypto] module, as far as this file uses it. A cipher object
    is created from an algorithm name and a key, fed with [update] (which
    returns the output produced so far and the object's next state) and
    closed with [final]; each step may throw. The cipher side takes UTF-8
    text and produces hex, the decipher side the reverse. [md5] is
    [createHash('md5').update(value).digest()] and [base64] is
    [Buffer.toString('base64')]. [randomBytes i n] is the [n] bytes the
    [i]-th call of [crypto.randomBytes(n)] returns. *)
Class NodeCrypto : Type := {
  Cipher : Type;
  Decipher : Type;
  createCipher : string -> string -> Exc Cipher;
  cipher_update : Cipher -> string -> Exc (string * Cipher);
  cipher_final : Cipher -> Exc string;
  createDecipher : string -> string -> Exc Decipher;
  decipher_update : Decipher -> string -> Exc (string * Decipher);
  decipher_final : Decipher -> Exc string;
  md5 : string -> string;
  base64 : string -> string;
  randomBytes : nat -> nat -> string
}.

(** The other imports: [config.auth.cipher] from [../app], the two
    upstream providers ([./auth-provider/myold] and
    [./auth-provider/graduate]), and the member [update] of the database
    module object itself, which line 139 calls as [db.update(...)]; every
    other store access goes through [db.auth]. They live in other modules
    and are parameters here. The providers answer a call with a result or
    a thrown value and do not touch the [auth] table. *)
Class Imports : Type := {
  config_auth_cipher : string;
  authProvider : Ctx -> string -> string -> Exc Profile;
  graduateAuthProvider : Ctx -> string -> string -> Exc unit;
  db_update : Filter -> Patch -> M unit
}.

Section Middleware.

Context {crypto : NodeCrypto} {imports : Imports}.

(** The [try] block of [encrypt]. *)
Definition encrypt_try (key value : string) : Exc string :=
  cipher <~ createCipher config_auth_cipher key ;;
  step <~ cipher_update cipher value ;;
  let (result, cipher) := step in
  last <~ cipher_final cipher ;;
  Ok (result ++ last)%string.

(** [encrypt(key, value)] *)
Definition encrypt (key value : string) : Exc string :=
  try_catch (encrypt_try key value) (fun _ => Ok "").

(** The [try] block of [decrypt]. *)
Definition decrypt_try (key value : string) : Exc string :=
  decipher <~ createDecipher config_auth_cipher key ;;
  step <~ decipher_update decipher value ;;
  let (result, decipher) := step in
  last <~ decipher_final decipher ;;
  Ok (result ++ last)%string.

(** [decrypt(key, value)] *)
Definition decrypt (key value : string) : Exc string :=
  try_catch (decrypt_try key value) (fun _ => Ok "").

(** [hash(value)] *)
Definition hash (value : string) : string := base64 (md5 value).

Definition log_call (c : UpstreamCall) (w : World) : World :=
  mkWorld (auth_table w) (clock w) (draws w) (upstream_log w ++ [c]).

(** [await graduateAuthProvider(ctx, subid, gpassword)] *)
Definition call_graduateAuthProvider (ctx : Ctx) (subid gpassword : string) : M unit :=
  fun w => (graduateAuthProvider ctx subid gpassword,
            log_call (CallGraduate subid gpassword) w).

(** [await authProvider(ctx, cardnum, password)] *)
Definition call_authProvider (ctx : Ctx) (cardnum password : string) : M Profile :=
  fun w => (authProvider ctx cardnum password,
            log_call (CallPrimary cardnum password) w).

(** [crypto.randomBytes(n)] *)
Definition random_bytes (n : nat) : M string :=
  fun w => (Ok (randomBytes (draws w) n),
            mkWorld (auth_table w) (clock w) (S (draws w)) (upstream_log w)).

(** [auth(ctx, cardnum, password, gpassword)]: the upstream
    authentication wrapper. *)
Definition auth (ctx : Ctx) (cardnum password gpassword : string) : M Profile :=
  try_catchM
    (match match_graduate cardnum with
     | Some subid => call_graduateAuthProvider ctx subid gpassword
     | None => ret tt
     end ;;
     call_authProvider ctx cardnum password)
    (fun e =>
       (if is_401 e then
          match user ctx with
          | Some (LoginUser _ info) =>
              (* ctx.user && ctx.user.isLogin *)
              let token := u_token info in
              db_auth_remove (by_tokenHash token)
          | Some GuestUser => ret tt
          | None => ret tt
          end
        else ret tt) ;;
       throw e).

(** The tail of the login branch, reached when there is no record or the
    stored token does not decrypt: authenticate upstream, mint a token,
    insert a row. *)
Definition login_new (ctx : Ctx) (cardnum password gpassword platform : string) : M Ctx :=
  profile <- auth ctx cardnum password gpassword ;;
  let name := prof_name profile in
  let schoolnum := prof_schoolnum profile in
  bytes <- random_bytes 20 ;;
  let token := to_hex bytes in
  let tokenHash := hash token in
  let passwordHash := hash password in
  tokenEncrypted <- lift (encrypt password token) ;;
  passwordEncrypted <- lift (encrypt token password) ;;
  gpasswordEncrypted <- (if test_22 cardnum then lift (encrypt token gpassword) else ret "") ;;
  now <- get_time ;;
  db_auth_insert (mkAuthRecord cardnum tokenHash tokenEncrypted passwordEncrypted
                               passwordHash gpasswordEncrypted name schoolnum platform
                               now now) ;;
  ret (set_body ctx token).

(** The password comparison of the login branch:
    [passwordHash !== hash(password)
     || /^22/.test(cardnum) && gpassword !== decrypt(token, gpasswordEncrypted)] *)
Definition password_changed (existing : AuthRecord) (cardnum password gpassword token : string)
  : Exc bool :=
  if negb (passwordHash existing =? hash password)%string then Ok true
  else if test_22 cardnum then
    stored <~ decrypt token (gpasswordEncrypted existing) ;;
    Ok (negb (gpassword =? stored)%string)
  else Ok false.

(** The branch for [ctx.path === '/auth']. *)
Definition login (ctx : Ctx) : M Ctx :=
  if negb (toUpperCase (method ctx) =? "POST")%string then throw (ThrowNum 405)
  else
    let cardnum := p_cardnum (params ctx) in
    let password := p_password (params ctx) in
    let gpassword := or_default (p_gpassword (params ctx)) password in
    match p_platform (params ctx) with
    | None => throw (ThrowStr "缺少参数 platform: 必须指定平台名")
    | Some platform =>
        if negb (truthy platform) then throw (ThrowStr "缺少参数 platform: 必须指定平台名")
        else
          existing <- db_auth_find (by_cardnum_platform cardnum platform) ;;
          match existing with
          | Some existing =>
              token <- lift (decrypt password (tokenEncrypted existing)) ;;
              if truthy token then
                changed <- lift (password_changed existing cardnum password gpassword token) ;;
                (if changed then
                   auth ctx cardnum password gpassword ;;
                   passwordEncrypted <- lift (encrypt token password) ;;
                   gpasswordEncrypted <- (if test_22 cardnum
                                          then lift (encrypt token gpassword)
                                          else ret "") ;;
                   tokenEncrypted <- lift (encrypt password token) ;;
                   let passwordHash := hash password in
                   db_update (by_cardnum_platform cardnum platform)
                             (mkPatch (Some passwordEncrypted) (Some gpasswordEncrypted)
                                      (Some tokenEncrypted) (Some passwordHash) None)
                 else ret tt) ;;
                ret (set_body ctx token)
              else login_new ctx cardnum password gpassword platform
          | None => login_new ctx cardnum password gpassword platform
          end
    end.

(** The last part of the middleware: the guest context. *)
Definition guest (ctx : Ctx) (next : Ctx -> M Ctx) : M Ctx :=
  let ctx := set_user ctx GuestUser in
  let ctx := set_useAuthCookie ctx RejectCookie in
  next ctx.

(** The branch for a request that carries [ctx.request.headers.token]. *)
Definition passthrough (ctx : Ctx) (token : string) (next : Ctx -> M Ctx) : M Ctx :=
  let tokenHash := hash token in
  record <- db_auth_find (by_tokenHash tokenHash) ;;
  match record with
  | Some record =>
      now <- get_time ;;
      db_auth_update (by_tokenHash tokenHash)
                     (mkPatch None None None None (Some now)) ;;
      let cardnum := cardnum record in
      let name := name record in
      password <- lift (decrypt token (passwordEncrypted record)) ;;
      gpassword <- (if test_22 cardnum
                    then lift (decrypt token (gpasswordEncrypted record))
                    else ret "") ;;
      let identity := hash (cardnum ++ name) in
      let ctx := set_useAuthCookie ctx (BoundAuth cardnum password gpassword) in
      let ctx := set_user ctx
                   (LoginUser token
                      (mkUserInfo tokenHash identity cardnum password gpassword name
                                  (schoolnum record) (platform record))) in
      next ctx
  | None => guest ctx next
  end.

(** [module.exports = async (ctx, next) => ...]; [next] receives the
    context as the middleware has left it. *)
Definition module_exports (ctx : Ctx) (next : Ctx -> M Ctx) : M Ctx :=
  if (path ctx =? "/auth")%string then login ctx
  else
    match headers_token ctx with
    | Some token => if truthy token then passthrough ctx token next else guest ctx next
    | None => guest ctx next
    end.

(** Calling [ctx.useAuthCookie()] downstream. *)
Definition call_useAuthCookie (ctx : Ctx) : M Profile :=
  match useAuthCookie ctx with
  | Some (BoundAuth cardnum password gpassword) => auth ctx cardnum password gpassword
  | Some RejectCookie => throw (ThrowNum 401)
  | None => throw (ThrowError "TypeError")
  end.

(** The properties downstream code reads from [ctx.user]. *)
Inductive UserProp : Type :=
| PisLogin | Pencrypt | Pdecrypt | Ptoken | Pidentity | Pcardnum
| Ppassword | Pgpassword | Pname | Pschoolnum | Pplatform.

(** What reading a property yields: a boolean, a string, [undefined], or
    one of the two functions bound to a key. *)
Inductive PropValue : Type :=
| VBool (b : bool)
| VStr (s : string)
| VUndefined
| VEncrypt (key : string)
| VDecrypt (key : string).

(** [ctx.user.<prop>]: the authenticated object holds plain values; the
    guest object holds [isLogin: false], a getter calling [reject] for
    nine names, and nothing under [token]. *)
Definition user_get (u : User) (p : UserProp) : Exc PropValue :=
  match u with
  | LoginUser key info =>
      Ok match p with
         | PisLogin => VBool true
         | Pencrypt => VEncrypt key
         | Pdecrypt => VDecrypt key
         | Ptoken => VStr (u_token info)
         | Pidentity => VStr (u_identity info)
         | Pcardnum => VStr (u_cardnum info)
         | Ppassword => VStr (u_password info)
         | Pgpassword => VStr (u_gpassword info)
         | Pname => VStr (u_name info)
         | Pschoolnum => VStr (u_schoolnum info)
         | Pplatform => VStr (u_platform info)
         end
  | GuestUser =>
      match p with
      | PisLogin => Ok (VBool false)
      | Ptoken => Ok VUndefined
      | Pencrypt | Pdecrypt | Pidentity | Pcardnum | Ppassword
      | Pgpassword | Pname | Pschoolnum | Pplatform => Throw (ThrowNum 401)
      end
  end.

(** ** Vocabulary for stating what a request did *)

(** The upstream calls [auth] makes when every provider it asks
    accepts. *)
Definition gateway_calls (cardnum password gpassword : string) : list UpstreamCall :=
  match match_graduate cardnum with
  | Some subid => [CallGraduate subid gpassword; CallPrimary cardnum password]
  | None => [CallPrimary cardnum password]
  end.

Definition log_calls (cs : list UpstreamCall) (w : World) : World :=
  mkWorld (auth_table w) (clock w) (draws w) (upstream_log w ++ cs).

(** Upstream accepts the credentials: the graduate provider, when the
    card number makes [auth] ask it, and the primary provider both
    return. *)
Definition upstream_accepts (ctx : Ctx) (cardnum password gpassword : string)
                            (profile : Profile) : Prop :=
  match match_graduate cardnum with
  | Some subid => graduateAuthProvider ctx subid gpassword = Ok tt
  | None => True
  end
  /\ authProvider ctx cardnum password = Ok profile.

(** Upstream rejects the credentials with Unauthorized: the first
    provider that does not return throws [401]. *)
Definition upstream_rejects (ctx : Ctx) (cardnum password gpassword : string) : Prop :=
  match match_graduate cardnum with
  | Some subid =>
      graduateAuthProvider ctx subid gpassword = Throw (ThrowNum 401)
      \/ (graduateAuthProvider ctx subid gpassword = Ok tt
          /\ authProvider ctx cardnum password = Throw (ThrowNum 401))
  | None => authProvider ctx cardnum password = Throw (ThrowNum 401)
  end.

(** A well-formed login request: [POST /auth] with a platform. *)
Definition login_request (ctx : Ctx) (platform : string) : Prop :=
  path ctx = "/auth"
  /\ toUpperCase (method ctx) = "POST"
  /\ p_platform (params ctx) = Some platform
  /\ platform <> "".

(** The secondary password a login request works with:
    [gpassword || password]. *)
Definition presented_gpassword (ctx : Ctx) : string :=
  or_default (p_gpassword (params ctx)) (p_password (params ctx)).

(** A row with only [lastInvoked] replaced. *)
Definition touch (now : Z) (r : AuthRecord) : AuthRecord :=
  mkAuthRecord (cardnum r) (tokenHash r) (tokenEncrypted r) (passwordEncrypted r)
               (passwordHash r) (gpasswordEncrypted r) (name r) (schoolnum r)
               (platform r) (registered r) now.

(** The table [auth] leaves behind when upstream answers [401]. *)
Definition table_after_401 (ctx : Ctx) (t : list AuthRecord) : list AuthRecord :=
  match user ctx with
  | Some (LoginUser _ info) => remove_rows (by_tokenHash (u_token info)) t
  | Some GuestUser => t
  | None => t
  end.

(** The guarded accessors of the guest object. *)
Definition guarded_props : list UserProp :=
  [Pencrypt; Pdecrypt; Pidentity; Pcardnum; Ppassword; Pgpassword;
   Pname; Pschoolnum; Pplatform].

End Middleware.

(** ** What the code relies on from [crypto]

    With a cipher name the library knows, creating a cipher and feeding
    it a string does not throw; the decipher made from the same key gives
    back what the cipher was fed; and deciphering the empty ciphertext
    gives no text (or throws); [randomBytes(n)] returns [n] bytes. *)
Class CryptoLaws {crypto : NodeCrypto} {imports : Imports} : Prop := {
  cipher_succeeds : forall key value,
    exists cipher result cipher' last,
      createCipher config_auth_cipher key = Ok cipher
      /\ cipher_update cipher value = Ok (result, cipher')
      /\ cipher_final cipher' = Ok last;
  decipher_inverts : forall key value cipher result cipher' last,
    createCipher config_auth_cipher key = Ok cipher ->
    cipher_update cipher value = Ok (result, cipher') ->
    cipher_final cipher' = Ok last ->
    exists decipher text decipher' rest,
      createDecipher config_auth_cipher key = Ok decipher
      /\ decipher_update decipher (result ++ last)%string = Ok (text, decipher')
      /\ decipher_final decipher' = Ok rest
      /\ (text ++ rest)%string = value;
  decipher_empty : forall key decipher text decipher' rest,
    createDecipher config_auth_cipher key = Ok decipher ->
    decipher_update decipher "" = Ok (text, decipher') ->
    decipher_final decipher' = Ok rest ->
    (text ++ rest)%string = "";
  randomBytes_length : forall i n, String.length (randomBytes i n) = n
}.

(** ** A small instance of the imports

    A one-byte XOR cipher with a key check byte, hex-encoded like the
    library's output, an identity digest, and an entropy source that
    returns a run of one letter. It serves to run the middleware on
    concrete requests. *)
Module Demo.

Definition xor_ascii (a b : ascii) : ascii :=
  match a, b with
  | Ascii a0 a1 a2 a3 a4 a5 a6 a7, Ascii b0 b1 b2 b3 b4 b5 b6 b7 =>
      Ascii (xorb a0 b0) (xorb a1 b1) (xorb a2 b2) (xorb a3 b3)
            (xorb a4 b4) (xorb a5 b5) (xorb a6 b6) (xorb a7 b7)
  end.

Definition rotate (a : ascii) : ascii :=
  match a with
  | Ascii a0 a1 a2 a3 a4 a5 a6 a7 => Ascii a7 a0 a1 a2 a3 a4 a5 a6
  end.

Fixpoint key_byte (key : string) : ascii :=
  match key with
  | EmptyString => "Z"%char
  | String c rest => xor_ascii c (rotate (key_byte rest))
  end.

Fixpoint xor_string (k : ascii) (s : string) : string :=
  match s with
  | EmptyString => EmptyString
  | String c rest => String (xor_ascii k c) (xor_string k rest)
  end.

Definition create (algorithm key : string) : Exc ascii :=
  if (algorithm =? "xor8")%string then Ok (key_byte key)
  else Throw (ThrowError "Error").

Definition enc_update (k : ascii) (value : string) : Exc (string * ascii) :=
  Ok (to_hex (String k (xor_string k value)), k).

Definition dec_update (k : ascii) (value : string) : Exc (string * ascii) :=
  match from_hex value with
  | Some (String check rest) =>
      if Ascii.eqb check k then Ok (xor_string k rest, k)
      else Throw (ThrowError "Error")
  | _ => Throw (ThrowError "Error")
  end.

Definition final (k : ascii) : Exc string := Ok "".

Fixpoint run (n : nat) (c : ascii) : string :=
  match n with
  | O => EmptyString
  | S m => String c (run m c)
  end.

Definition crypto : NodeCrypto := {|
  Cipher := ascii;
  Decipher := ascii;
  createCipher := create;
  cipher_update := enc_update;
  cipher_final := final;
  createDecipher := create;
  decipher_update := dec_update;
  decipher_final := final;
  md5 := fun value => value;
  base64 := fun digest => digest;
  randomBytes := fun i n => run n (ascii_of_nat (65 + i))
|}.

(** Imports whose providers answer every call with a fixed outcome. *)
Definition imports (primary : Exc Profile) (graduate : Exc unit)
                   (update : Filter -> Patch -> M unit) : Imports := {|
  config_auth_cipher := "xor8";
  authProvider := fun _ _ _ => primary;
  graduateAuthProvider := fun _ _ _ => graduate;
  db_update := update
|}.

(** [db.update] when the database module object has no such function:
    the call raises a [TypeError]. *)
Definition no_update (f : Filter) (p : Patch) : M unit :=
  throw (ThrowError "TypeError").

Definition profile : Profile := mkProfile "Li" "04016001".

Definition accepting : Imports := imports (Ok profile) (Ok tt) no_update.

Definition rejecting : Imports :=
  imports (Throw (ThrowNum 401)) (Throw (ThrowNum 401)) no_update.

Definition empty_world : World := mkWorld [] 1000 0 [].

Definition request (path method : string) (params : Params) (token : option string) : Ctx :=
  mkCtx path method params token None None None.

Definition done (ctx : Ctx) : M Ctx := ret ctx.

(** A graduate student logs in for the first time on an empty table,
    and later presents another secondary password. *)
Definition first_login : Ctx :=
  request "/auth" "POST" (mkParams "22012345" "p1" (Some "g1") (Some "app")) None.

Definition after_first_login : World :=
  snd (@module_exports crypto accepting first_login done empty_world).

Definition relogin_new_gpassword : Ctx :=
  request "/auth" "POST" (mkParams "22012345" "p1" (Some "g2") (Some "app")) None.

Definition issued_token : string := "4141414141414141414141414141414141414141".

(** The row the first login leaves in the table. *)
Definition stored_row : AuthRecord :=
  mkAuthRecord "22012345" issued_token
    "7b4f4a4f4a4f4a4f4a4f4a4f4a4f4a4f4a4f4a4f4a4f4a4f4a4f4a4f4a4f4a4f4a4f4a4f4a4f4a4f4a"
    "a5d594" "p1" "a5c294" "Li" "04016001" "app" 1000 1000.

(** A later request to another route, bearing the issued token, at a
    later time. *)
Definition bearer_request : Ctx :=
  request "/api/card" "GET" (mkParams "" "" None None) (Some issued_token).

Definition later (w : World) : World :=
  mkWorld (auth_table w) (clock w + 60000) (draws w) (upstream_log w).

(** The context the middleware hands downstream for that request. *)
Definition bearer_context : Ctx :=
  set_user
    (set_useAuthCookie bearer_request (BoundAuth "22012345" "p1" "g1"))
    (LoginUser issued_token
       (mkUserInfo issued_token "22012345Li" "22012345" "p1" "g1" "Li" "04016001" "app")).

(** A request to another route without a token. *)
Definition anonymous_request : Ctx :=
  request "/api/card" "GET" (mkParams "" "" None None) None.

(** Downstream code that asks for the upstream cookie. *)
Definition wants_cookie {crypto : NodeCrypto} {imports : Imports} (ctx : Ctx) : M Ctx :=
  (call_useAuthCookie ctx ;; ret ctx)%js.

End Demo.

(** ** Further vocabulary and requests *)

(** A character of [Buffer.toString('hex')] output: a digit or one of
    [a]..[f]. *)
Definition is_lower_hex (c : ascii) : bool :=
  let n := N_of_ascii c in
  (((48 <=? n) && (n <=? 57)) || ((97 <=? n) && (n <=? 102)))%N.

Fixpoint all_lower_hex (s : string) : bool :=
  match s with
  | EmptyString => true
  | String c rest => is_lower_hex c && all_lower_hex rest
  end.

(** A string of 7-bit characters, on which [toUpperCase] above is
    JavaScript's. *)
Fixpoint ascii_only (s : string) : bool :=
  match s with
  | EmptyString => true
  | String c rest => (N_of_ascii c <? 128)%N && ascii_only rest
  end.

(** The context the guest branch hands downstream. *)
Definition guest_context (ctx : Ctx) : Ctx :=
  set_useAuthCookie (set_user ctx GuestUser) RejectCookie.

Module Scenario.

(** A login attempt with the wrong HTTP verb, and one without a
    platform. *)
Definition get_login : Ctx :=
  Demo.request "/auth" "GET" (mkParams "22012345" "p1" (Some "g1") (Some "app")) None.

Definition login_without_platform : Ctx :=
  Demo.request "/auth" "post" (mkParams "22012345" "p1" (Some "g1") None) None.

(** The graduate student logs in with a new password that upstream
    accepts. *)
Definition login_new_password : Ctx :=
  Demo.request "/auth" "POST" (mkParams "22012345" "p2" (Some "g1") (Some "app")) None.

(** A graduate student who sends no secondary password. *)
Definition login_no_gpassword : Ctx :=
  Demo.request "/auth" "POST" (mkParams "22012345" "p1" None (Some "app")) None.

(** Upstream is down: both providers fail with a 500. *)
Definition unavailable : Imports :=
  Demo.imports (Throw (ThrowNum 500)) (Throw (ThrowNum 500)) Demo.no_update.

End Scenario.

(** * The lost-and-found route

    [routes/api/lostAndFound/index.js], a consumer of [this.user]. The
    handlers talk to an Oracle table through [this.db] with statements
    built from fixed templates; a statement is kept here as its template
    and the values interpolated into it or bound to it. What the database
    answers is a parameter, and so is the list of administrators read from
    [admin.json]. Request parameters are strings or [undefined]; [page] and
    [pagesize] are coerced with unary plus and are IEEE doubles from then
    on. *)
Module LostAndFound.

(** A value in a result row: a string, a number, [null], or [undefined]
    when the row is shorter than the pattern that destructures it. *)
Inductive Cell : Type :=
| CUndefined
| CNull
| CNum (n : Z)
| CStr (s : string).

Definition cell_truthy (c : Cell) : bool :=
  match c with
  | CUndefined => false
  | CNull => false
  | CNum n => negb (n =? 0)
  | CStr s => truthy s
  end.

(** [cardnum === cell] for a string [cardnum]. *)
Definition cell_is (cardnum : string) (c : Cell) : bool :=
  match c with
  | CStr s => (s =? cardnum)%string
  | _ => false
  end.

(** The object each handler builds from a row; [canAudit] is either set
    to [true] or absent. *)
Record Item : Type := mkItem {
  _id : Cell;
  creator : Cell;
  title : Cell;
  lastModifiedTime : Cell;
  describe : Cell;
  imageUrl : Cell;
  type : Cell;
  isAudit : Cell;
  isFinished : Cell;
  canAudit : bool
}.

(** [let [_id, creator, ...] = Element; return { _id, creator, ... }] *)
Definition item_of_row (canAudit : bool) (Element : list Cell) : Item :=
  mkItem (nth 0 Element CUndefined) (nth 1 Element CUndefined) (nth 2 Element CUndefined)
         (nth 3 Element CUndefined) (nth 4 Element CUndefined) (nth 5 Element CUndefined)
         (nth 6 Element CUndefined) (nth 7 Element CUndefined) (nth 8 Element CUndefined)
         canAudit.

(** [record.canAudit = true] *)
Definition allow_audit (record : Item) : Item :=
  mkItem (_id record) (creator record) (title record) (lastModifiedTime record)
         (describe record) (imageUrl record) (type record) (isAudit record)
         (isFinished record) true.

(** The four listings of [get]. *)
Inductive Listing : Type :=
| Lost
| Found
| Audit
| Mine (cardnum : string).

(** A parameter on its way to unary plus: absent, already a number, or a
    string. *)
Inductive Param : Type :=
| PUndefined
| PNumber (x : float)
| PString (s : string).

(** A statement handed to [this.db.execute] or [this.db.executeMany];
    the bounds of a page are the doubles interpolated into it. *)
Inductive Statement : Type :=
| SelectById (id : string)
| SelectPage (which : Listing) (above upTo : float)
| InsertMany (binds : list (list Cell))
| UpdateById (id : string) (imageUrl : option string) (now : Z) (title describe : Cell)
| DeleteById (id : string).

Record DbResult : Type := mkDbResult {
  rows : list (list Cell);
  rowsAffected : Z
}.

(** What a handler can change: the statements sent so far, the files
    handed to [deleteFile], and the time [moment()] reads. *)
Record Store : Type := mkStore {
  sent : list Statement;
  deleted : list string;
  now : Z
}.

(** [adminList], the database behind [this.db] (its answer to a
    statement, given the statements sent before), and the number a string
    converts to under unary plus. *)
Class Site : Type := {
  adminList : list string;
  db_answer : list Statement -> Statement -> Exc DbResult;
  string_to_number : string -> float
}.

Definition R (A : Type) : Type := Store -> Exc A * Store.

Definition rret {A : Type} (a : A) : R A := fun s => (Ok a, s).

Definition rbind {A B : Type} (c : R A) (k : A -> R B) : R B :=
  fun s =>
    match c s with
    | (Ok a, s') => k a s'
    | (Throw e, s') => (Throw e, s')
    end.

Definition rthrow {A : Type} (e : Thrown) : R A := fun s => (Throw e, s).

Definition rlift {A : Type} (c : Exc A) : R A := fun s => (c, s).

Declare Scope route_scope.
Delimit Scope route_scope with route.
Notation "x <- c ;; k" := (rbind c (fun x => k))
  (at level 61, c at next level, right associativity) : route_scope.
Notation "c ;; k" := (rbind c (fun _ => k))
  (at level 61, right associativity) : route_scope.
Local Open Scope route_scope.

(** What a handler returns. *)
Inductive Reply : Type :=
| ReplyUndefined
| ReplyItem (item : Item)
| ReplyItems (items : list Item)
| ReplyText (text : string).

(** [`${value}`] for a parameter that may be [undefined]. *)
Definition interpolate (value : option string) : string :=
  match value with
  | Some s => s
  | None => "undefined"
  end.

(** [value ? value : fallback] on a parameter. *)
Definition given_or (value : option string) (fallback : Cell) : Cell :=
  match value with
  | Some s => if truthy s then CStr s else fallback
  | None => fallback
  end.

(** [String.prototype.split] on a one-character separator. *)
Fixpoint split (sep : ascii) (s : string) : list string :=
  match s with
  | EmptyString => [EmptyString]
  | String c rest =>
      if (c =? sep)%char then EmptyString :: split sep rest
      else match split sep rest with
           | head :: tail => String c head :: tail
           | [] => [String c EmptyString]
           end
  end.

(** [haystack.indexOf(needle) === -1] *)
Definition lacks (haystack needle : string) : bool :=
  match index 0 needle haystack with
  | Some _ => false
  | None => true
  end.

(** [imageUrl && imageUrl.indexOf(`lf-${cardnum}`) === -1] *)
Definition foreign_image (imageUrl : option string) (cardnum : string) : bool :=
  match imageUrl with
  | Some url => truthy url && lacks url ("lf-" ++ cardnum)
  | None => false
  end.

(** [imageUrl ? `'${imageUrl}'` : null] in the update statement. *)
Definition image_literal (imageUrl : option string) : option string :=
  match imageUrl with
  | Some url => if truthy url then Some url else None
  | None => None
  end.

Section Handlers.

Context {site : Site}.

(** [let { cardnum } = this.user] *)
Definition cardnum_of (u : User) : R string :=
  match user_get u Pcardnum with
  | Ok (VStr cardnum) => rret cardnum
  | Ok _ => rthrow (ThrowError "TypeError")
  | Throw e => rthrow e
  end.

(** [await this.db.execute(...)] *)
Definition execute (statement : Statement) : R DbResult :=
  fun s => (db_answer (sent s) statement,
            mkStore (sent s ++ [statement]) (deleted s) (now s)).

(** [+moment()], the current time in milliseconds; [moment] is a
    global of the application. *)
Definition moment : R Z := fun s => (Ok (now s), s).

(** [deleteFile(url)] *)
Definition deleteFile (url : string) : R unit :=
  fun s => (Ok tt, mkStore (sent s) (deleted s ++ [url]) (now s)).

Fixpoint forEach_deleteFile (urls : list string) : R unit :=
  match urls with
  | [] => rret tt
  | url :: rest => deleteFile url ;; forEach_deleteFile rest
  end.

(** [if (record.imageUrl) record.imageUrl.split('|').forEach(url =>
    deleteFile(url))]; a number has no [split]. *)
Definition delete_images (imageUrl : Cell) : R unit :=
  if cell_truthy imageUrl then
    match imageUrl with
    | CStr urls => forEach_deleteFile (split "|" urls)
    | _ => rthrow (ThrowError "TypeError")
    end
  else rret tt.

(** [adminList.indexOf(cardnum) !== -1] *)
Definition is_admin (cardnum : string) : bool :=
  existsb (fun a => (a =? cardnum)%string) adminList.

(** [+value], with the default of the parameter list standing in for
    [undefined]. *)
Definition unary_plus (value : Param) (default : float) : float :=
  match value with
  | PUndefined => default
  | PNumber x => x
  | PString s => string_to_number s
  end.

(** [(page - 1) * pagesize] and [page * pagesize], in doubles. *)
Definition page_above (page pagesize : float) : float := ((page - 1) * pagesize)%float.
Definition page_upTo (page pagesize : float) : float := (page * pagesize)%float.

(** [get({ id = '', type, page = 1, pagesize = 10 })] *)
Definition get (u : User) (id type : option string) (page pagesize : Param) : R Reply :=
  let id := match id with Some s => s | None => "" end in
  cardnum <- cardnum_of u ;;
  if truthy id then
    record <- execute (SelectById id) ;;
    match map (item_of_row false) (rows record) with
    | record :: _ =>
        if is_admin cardnum
        then rret (ReplyItem (allow_audit record))
        else rret (ReplyItem record)
    | [] =>
        if is_admin cardnum then rthrow (ThrowError "TypeError")
        else rret ReplyUndefined
    end
  else
    let page := unary_plus page 1%float in
    let pagesize := unary_plus pagesize 10%float in
    match type with
    | Some "lost" =>
        record <- execute (SelectPage Lost (page_above page pagesize)
                                      (page_upTo page pagesize)) ;;
        rret (ReplyItems (map (item_of_row false) (rows record)))
    | Some "found" =>
        record <- execute (SelectPage Found (page_above page pagesize)
                                      (page_upTo page pagesize)) ;;
        rret (ReplyItems (map (item_of_row false) (rows record)))
    | Some "audit" =>
        if negb (is_admin cardnum) then rret (ReplyItems [])
        else
          record <- execute (SelectPage Audit (page_above page pagesize)
                                        (page_upTo page pagesize)) ;;
          rret (ReplyItems (map (item_of_row true) (rows record)))
    | _ =>
        record <- execute (SelectPage (Mine cardnum) (page_above page pagesize)
                                      (page_upTo page pagesize)) ;;
        rret (ReplyItems (map (item_of_row true) (rows record)))
    end.

(** [['lost', 'found'].indexOf(type) === -1] *)
Definition bad_type (type : option string) : bool :=
  match type with
  | Some t => negb ((t =? "lost")%string || (t =? "found")%string)
  | None => true
  end.

(** [post({ type, title, describe, imageUrl })] *)
Definition post (u : User) (type title describe imageUrl : option string) : R Reply :=
  cardnum <- cardnum_of u ;;
  if bad_type type then rthrow (ThrowStr "事务类型不正确")
  else
    match title with
    | None => rthrow (ThrowStr "必须指定物品名称")
    | Some title =>
        if negb (truthy title) || (Z.of_nat (String.length title) <=? 0)
        then rthrow (ThrowStr "必须指定物品名称")
        else if foreign_image imageUrl cardnum then rthrow (ThrowStr "图片不合法")
        else
          time <- moment ;;
          result <- execute (InsertMany
                               [[CStr cardnum; CStr title; CNum time;
                                 given_or describe (CStr "");
                                 given_or imageUrl (CStr "");
                                 CStr (interpolate type); CNum 0; CNum 0]]) ;;
          if rowsAffected result >? 0 then rret (ReplyText "提交成功")
          else rthrow (ThrowStr "提交失败")
    end.

(** [put({ id, title, describe, imageUrl })] *)
Definition put (u : User) (id title describe imageUrl : option string) : R Reply :=
  cardnum <- cardnum_of u ;;
  record <- execute (SelectById (interpolate id)) ;;
  let oldRecord := hd_error (map (item_of_row false) (rows record)) in
  if foreign_image imageUrl cardnum then rthrow (ThrowStr "图片不合法")
  else
    match oldRecord with
    | None => rthrow (ThrowStr "待修改事务不存在")
    | Some oldRecord =>
        if cell_truthy (isFinished oldRecord) || cell_truthy (isAudit oldRecord)
        then rthrow (ThrowStr "不能修改已审核或者已标记完成的事务")
        else
          delete_images (LostAndFound.imageUrl oldRecord) ;;
          time <- moment ;;
          result <- execute (UpdateById (interpolate id) (image_literal imageUrl)
                               time
                               (given_or title (LostAndFound.title oldRecord))
                               (given_or describe (LostAndFound.describe oldRecord))) ;;
          if rowsAffected result >? 0 then rret (ReplyText "修改成功")
          else rthrow (ThrowStr "修改失败")
    end.

(** [record.creator], where [record] may be [undefined]. *)
Definition creator_of (record : option Item) : R Cell :=
  match record with
  | Some record => rret (creator record)
  | None => rthrow (ThrowError "TypeError")
  end.

(** [delete({ id })] *)
Definition delete (u : User) (id : option string) : R Reply :=
  cardnum <- cardnum_of u ;;
  record <- execute (SelectById (interpolate id)) ;;
  let record := hd_error (map (item_of_row false) (rows record)) in
  owner <- creator_of record ;;
  if negb (cell_is cardnum owner || is_admin cardnum) then rthrow (ThrowNum 401)
  else
    match record with
    | None => rthrow (ThrowStr "事务不存在")
    | Some record =>
        delete_images (LostAndFound.imageUrl record) ;;
        result <- execute (DeleteById (interpolate id)) ;;
        if rowsAffected result >? 0 then rret (ReplyText "删除成功")
        else rthrow (ThrowStr "删除失败")
    end.

End Handlers.

(** The files named by an [imageUrl] cell: the pieces between the bars
    of a non-empty string, none for any other cell. *)
Definition image_files (imageUrl : Cell) : list string :=
  match imageUrl with
  | CStr urls => if truthy urls then split "|" urls else []
  | _ => []
  end.

(** An [imageUrl] cell is a string or falsy (not a non-zero number). *)
Definition string_or_falsy (c : Cell) : bool :=
  match c with
  | CNum n => n =? 0
  | _ => true
  end.

(** An image parameter the handlers accept from [cardnum]: none, the
    empty string, or a string with [lf-<cardnum>] somewhere in it. *)
Definition own_image (imageUrl : option string) (cardnum : string) : Prop :=
  match imageUrl with
  | None => True
  | Some url =>
      url = ""
      \/ exists m, substring m (String.length ("lf-" ++ cardnum)) url
                   = ("lf-" ++ cardnum)%string
  end.

(** The store after one more statement. *)
Definition after (statement : Statement) (s : Store) : Store :=
  mkStore (sent s ++ [statement]) (deleted s) (now s).

(** The store after more files went to [deleteFile]. *)
Definition without (files : list string) (s : Store) : Store :=
  mkStore (sent s) (deleted s ++ files) (now s).

(** A site for running the handlers: one administrator, and a table
    holding a single unaudited item of "213000001" under the id "w1"; a
    select by that id returns it, every write affects one row. *)
Definition demo_row : list Cell :=
  [CStr "w1"; CStr "213000001"; CStr "umbrella"; CNum 900; CStr "black";
   CStr "lf-213000001-a.jpg|lf-213000001-b.jpg"; CStr "lost"; CNum 0; CNum 0].

Definition demo_site : Site := {|
  adminList := ["213009999"];
  db_answer := fun _ statement =>
    match statement with
    | SelectById id => Ok (mkDbResult (if (id =? "w1")%string then [demo_row] else []) 0)
    | SelectPage _ _ _ => Ok (mkDbResult [demo_row] 0)
    | _ => Ok (mkDbResult [] 1)
    end;
  string_to_number := fun _ => nan
|}.

Definition visitor_info (cardnum : string) : UserInfo :=
  mkUserInfo "h" "i" cardnum "p" "" "n" "s" "app".

Definition visitor (cardnum : string) : User := LoginUser "t" (visitor_info cardnum).

Definition fresh : Store := mkStore [] [] 5000.

End LostAndFound.

(** * Properties *)

(** ** Regular expressions and hex *)

Lemma match_graduate_test_22 (cardnum subid : string) :
  match_graduate cardnum = Some subid -> test_22 cardnum = true.
Proof.
  unfold match_graduate, test_22.
  destruct cardnum as [|a [|b rest]]; try discriminate.
  destruct ((a =? "2")%char && (b =? "2")%char); [reflexivity | discriminate].
Qed.

Lemma hex_pair (c : ascii) :
  hex_value (hex_digit (N_of_ascii c / 16)) = Some (N_of_ascii c / 16)%N
  /\ hex_value (hex_digit (N_of_ascii c mod 16)) = Some (N_of_ascii c mod 16)%N
  /\ ascii_of_N (16 * (N_of_ascii c / 16) + N_of_ascii c mod 16) = c.
Proof.
  destruct c as [[] [] [] [] [] [] [] []]; vm_compute; repeat split.
Qed.

Lemma from_hex_to_hex (bytes : string) : from_hex (to_hex bytes) = Some bytes.
Proof.
  induction bytes as [|c rest IH]; [reflexivity|].
  cbn [to_hex from_hex].
  destruct (hex_pair c) as (Hhi & Hlo & Hc).
  rewrite Hhi, Hlo, IH, Hc. reflexivity.
Qed.

Lemma to_hex_length (bytes : string) :
  String.length (to_hex bytes) = (2 * String.length bytes)%nat.
Proof.
  induction bytes as [|c rest IH]; [reflexivity|].
  cbn [to_hex String.length]. rewrite IH. lia.
Qed.

Lemma xor_ascii_involutive (k c : ascii) : Demo.xor_ascii k (Demo.xor_ascii k c) = c.
Proof.
  destruct k, c; cbn.
  repeat match goal with
         | |- context [xorb ?a (xorb ?a ?b)] =>
             replace (xorb a (xorb a b)) with b by (destruct a, b; reflexivity)
         end.
  reflexivity.
Qed.

Lemma xor_string_involutive (k : ascii) (s : string) :
  Demo.xor_string k (Demo.xor_string k s) = s.
Proof.
  induction s as [|c rest IH]; cbn; [reflexivity|].
  now rewrite xor_ascii_involutive, IH.
Qed.

Lemma all_digits_app (s t : string) :
  all_digits (s ++ t) = all_digits s && all_digits t.
Proof.
  induction s as [|c s IH]; cbn; [reflexivity|].
  now rewrite IH, andb_assoc.
Qed.

Lemma length_app (s t : string) :
  String.length (s ++ t) = (String.length s + String.length t)%nat.
Proof.
  induction s as [|c s IH]; cbn; [reflexivity|]. now rewrite IH.
Qed.

Lemma string_app_nil_r (s : string) : (s ++ "")%string = s.
Proof.
  induction s as [|c s IH]; cbn; [reflexivity|]. now rewrite IH.
Qed.

Lemma substring_all (s : string) : substring 0 (String.length s) s = s.
Proof.
  induction s as [|c s IH]; cbn; [reflexivity|]. now rewrite IH.
Qed.

Lemma substring_skip (s t : string) (n : nat) :
  substring (String.length s) n (s ++ t) = substring 0 n t.
Proof.
  induction s as [|c s IH]; cbn; [reflexivity|]. exact IH.
Qed.

Lemma split_at (n : nat) : forall s : string,
  (n <= String.length s)%nat ->
  exists front back, s = (front ++ back)%string
                     /\ String.length front = n
                     /\ String.length back = (String.length s - n)%nat.
Proof.
  induction n as [|n IH]; intros s Hn.
  - exists EmptyString, s. cbn. repeat split. lia.
  - destruct s as [|c s]; cbn in Hn; [lia|].
    destruct (IH s) as (front & back & Hs & Hf & Hb); [lia|].
    exists (String c front), back. cbn. rewrite <- Hs, Hf. repeat split. exact Hb.
Qed.

(** The matcher agrees with the language of [/^22\d*(\d{6})$/]: the
    card number is "22", then digits, then six digits, and the group is
    those six. *)
Lemma match_graduate_spec (cardnum subid : string) :
  match_graduate cardnum = Some subid <->
  exists mid, cardnum = ("22" ++ mid ++ subid)%string
              /\ all_digits mid = true
              /\ all_digits subid = true
              /\ String.length subid = 6%nat.
Proof.
  split.
  - unfold match_graduate.
    destruct cardnum as [|a [|b rest]]; try discriminate.
    destruct (a =? "2")%char eqn:Ha; [|discriminate].
    destruct (b =? "2")%char eqn:Hb; [|discriminate].
    destruct (all_digits rest) eqn:Hd; [|discriminate].
    destruct (6 <=? String.length rest)%nat eqn:Hl; [|discriminate].
    cbn [andb]. intros [= <-].
    apply Ascii.eqb_eq in Ha, Hb. subst a b.
    apply Nat.leb_le in Hl.
    destruct (split_at (String.length rest - 6) rest) as (mid & back & Hs & Hm & Hk); [lia|].
    assert (Hk6 : String.length back = 6%nat) by (subst rest; rewrite length_app in *; lia).
    assert (Hsub : substring (String.length rest - 6) 6 rest = back).
    { rewrite <- Hm, Hs, substring_skip, <- Hk6. apply substring_all. }
    rewrite Hsub. exists mid. subst rest.
    rewrite all_digits_app in Hd. apply andb_true_iff in Hd as [Hd1 Hd2].
    repeat split; assumption.
  - intros (mid & -> & Hm & Hs & Hl).
    change ("22" ++ mid ++ subid)%string with (String "2" (String "2" (mid ++ subid))).
    unfold match_graduate.
    rewrite Ascii.eqb_refl, all_digits_app, Hm, Hs, length_app, Hl. cbn [andb].
    replace (6 <=? String.length mid + 6)%nat with true
      by (symmetry; apply Nat.leb_le; lia).
    replace (String.length mid + 6 - 6)%nat with (String.length mid) by lia.
    rewrite substring_skip, <- Hl, substring_all. reflexivity.
Qed.

(** ** The demo cipher obeys the laws *)

Lemma run_length (n : nat) (c : ascii) : String.length (Demo.run n c) = n.
Proof.
  induction n as [|n IH]; cbn; [reflexivity|]. now rewrite IH.
Qed.

Lemma demo_laws (primary : Exc Profile) (graduate : Exc unit)
                (update : Filter -> Patch -> M unit) :
  @CryptoLaws Demo.crypto (Demo.imports primary graduate update).
Proof.
  constructor; cbn.
  - intros key value.
    exists (Demo.key_byte key), (to_hex (String (Demo.key_byte key)
                                          (Demo.xor_string (Demo.key_byte key) value))),
      (Demo.key_byte key), "".
    repeat split.
  - intros key value cipher result cipher' last [= <-] [= <- <-] [= <-].
    exists (Demo.key_byte key), value, (Demo.key_byte key), "".
    repeat split.
    + unfold Demo.dec_update.
      rewrite string_app_nil_r.
      change (String (hex_digit (N_of_ascii (Demo.key_byte key) / 16)) _)
        with (to_hex (String (Demo.key_byte key)
                             (Demo.xor_string (Demo.key_byte key) value))).
      rewrite from_hex_to_hex, Ascii.eqb_refl, xor_string_involutive. reflexivity.
    + apply string_app_nil_r.
  - intros key decipher text decipher' rest _ H. discriminate H.
  - intros i n. apply run_length.
Qed.

Section Properties.

Context {crypto : NodeCrypto} {imports : Imports}.

(** ** The crypto wrappers *)

Lemma encrypt_returns (key value : string) : exists c, encrypt key value = Ok c.
Proof.
  unfold encrypt, try_catch. destruct (encrypt_try key value); eauto.
Qed.

Lemma decrypt_returns (key value : string) : exists s, decrypt key value = Ok s.
Proof.
  unfold decrypt, try_catch. destruct (decrypt_try key value); eauto.
Qed.

Lemma encrypt_decrypt {laws : CryptoLaws} (key value : string) :
  exists c, encrypt key value = Ok c /\ decrypt key c = Ok value.
Proof.
  destruct (cipher_succeeds key value) as (cipher & result & cipher' & last & Hc & Hu & Hf).
  destruct (decipher_inverts key value _ _ _ _ Hc Hu Hf)
    as (decipher & text & decipher' & rest & Hd & Hdu & Hdf & Hv).
  exists (result ++ last)%string. split.
  - unfold encrypt, encrypt_try. rewrite Hc. cbn. rewrite Hu. cbn. rewrite Hf. reflexivity.
  - unfold decrypt, decrypt_try. rewrite Hd. cbn. rewrite Hdu. cbn. rewrite Hdf. cbn.
    now rewrite Hv.
Qed.

Lemma decrypt_empty {laws : CryptoLaws} (key : string) : decrypt key "" = Ok "".
Proof.
  unfold decrypt, decrypt_try, try_catch, exc_bind.
  destruct (createDecipher config_auth_cipher key) as [d|] eqn:Hd; [|reflexivity].
  destruct (decipher_update d "") as [[text d']|] eqn:Hu; [|reflexivity].
  destruct (decipher_final d') as [rest|] eqn:Hf; [|reflexivity].
  now rewrite (decipher_empty key d text d' rest Hd Hu Hf).
Qed.

Lemma encrypt_nonempty {laws : CryptoLaws} (key value c : string) :
  value <> "" -> encrypt key value = Ok c -> c <> "".
Proof.
  intros Hv Hc ->.
  destruct (encrypt_decrypt key value) as (c' & Hc' & Hd).
  rewrite Hc in Hc'. injection Hc' as <-.
  rewrite decrypt_empty in Hd. injection Hd as <-. now apply Hv.
Qed.

Lemma minted_token_nonempty {laws : CryptoLaws} (i : nat) :
  to_hex (randomBytes i 20) <> "".
Proof.
  intros H. apply (f_equal String.length) in H.
  rewrite to_hex_length, randomBytes_length in H. discriminate.
Qed.

(** C6: for every key and every value, decrypting under the key what
    [encrypt] produced under the same key gives the value back; this covers
    both [decrypt(password, encrypt(password, token)) == token] and
    [decrypt(token, encrypt(token, password)) == password]. It holds when
    [config.auth.cipher] names a cipher of the library (the laws). *)
Theorem C6_decrypt_encrypt_round_trip {laws : CryptoLaws} (key value : string) :
  exists ciphertext,
    encrypt key value = Ok ciphertext /\ decrypt key ciphertext = Ok value.
Proof.
  exact (encrypt_decrypt key value).
Qed.

(** C7: [decrypt] and [encrypt] never raise to their caller, whatever
    the library does: every call returns a string, and when any step
    inside the [try] block throws (wrong key, malformed ciphertext, unknown
    cipher) the string returned is empty. *)
Theorem C7_crypto_wrappers_never_raise (key value : string) :
  (exists s, decrypt key value = Ok s)
  /\ (exists s, encrypt key value = Ok s)
  /\ (forall e, decrypt_try key value = Throw e -> decrypt key value = Ok "")
  /\ (forall e, encrypt_try key value = Throw e -> encrypt key value = Ok "").
Proof.
  split; [apply decrypt_returns|].
  split; [apply encrypt_returns|].
  split; intros e He.
  - unfold decrypt. now rewrite He.
  - unfold encrypt. now rewrite He.
Qed.

(** ** The upstream authentication wrapper *)

Lemma log_call_log_call (a b : UpstreamCall) (w : World) :
  log_call b (log_call a w) = log_calls [a; b] w.
Proof.
  unfold log_call, log_calls. cbn. now rewrite <- app_assoc.
Qed.

Lemma auth_accepted (ctx : Ctx) (cardnum password gpassword : string)
                    (profile : Profile) (w : World) :
  upstream_accepts ctx cardnum password gpassword profile ->
  auth ctx cardnum password gpassword w
  = (Ok profile, log_calls (gateway_calls cardnum password gpassword) w).
Proof.
  unfold upstream_accepts, gateway_calls, auth, try_catchM, bind,
    call_graduateAuthProvider, call_authProvider, ret.
  intros [Hg Hp].
  destruct (match_graduate cardnum) as [subid|].
  - rewrite Hg, Hp. now rewrite log_call_log_call.
  - now rewrite Hp.
Qed.

Lemma auth_rejected (ctx : Ctx) (cardnum password gpassword : string) (w : World) :
  upstream_rejects ctx cardnum password gpassword ->
  exists calls,
    auth ctx cardnum password gpassword w
    = (Throw (ThrowNum 401),
       with_table (log_calls calls w) (table_after_401 ctx (auth_table w))).
Proof.
  unfold upstream_rejects, auth, try_catchM, bind, table_after_401,
    call_graduateAuthProvider, call_authProvider, ret, throw.
  intros H.
  destruct (match_graduate cardnum) as [subid|].
  - destruct H as [Hg | [Hg Hp]].
    + exists [CallGraduate subid gpassword]. rewrite Hg. cbn.
      destruct (user ctx) as [[key info|]|]; reflexivity.
    + exists [CallGraduate subid gpassword; CallPrimary cardnum password].
      rewrite Hg, Hp. cbn.
      destruct (user ctx) as [[key info|]|]; cbn;
        unfold with_table, log_calls, log_call, db_auth_remove; cbn;
        rewrite <- ?app_assoc; reflexivity.
  - exists [CallPrimary cardnum password]. rewrite H. cbn.
    destruct (user ctx) as [[key info|]|]; reflexivity.
Qed.

Lemma remove_rows_gone (h : string) (t : list AuthRecord) (r : AuthRecord) :
  In r (remove_rows (by_tokenHash h) t) -> tokenHash r <> h.
Proof.
  unfold remove_rows. intros Hin Heq.
  apply filter_In in Hin as [_ Hm].
  unfold matches, by_tokenHash, field_matches in Hm. cbn in Hm.
  rewrite Heq, String.eqb_refl in Hm. discriminate.
Qed.


(** ** The login branch *)

Lemma login_request_runs (ctx : Ctx) (next : Ctx -> M Ctx) (plat : string) (w : World) :
  login_request ctx plat ->
  module_exports ctx next w
  = (existing <- db_auth_find (by_cardnum_platform (p_cardnum (params ctx)) plat) ;;
     match existing with
     | Some existing =>
         token <- lift (decrypt (p_password (params ctx)) (tokenEncrypted existing)) ;;
         if truthy token then
           changed <- lift (password_changed existing (p_cardnum (params ctx))
                              (p_password (params ctx)) (presented_gpassword ctx) token) ;;
           (if changed then
              auth ctx (p_cardnum (params ctx)) (p_password (params ctx))
                   (presented_gpassword ctx) ;;
              passwordEncrypted <- lift (encrypt token (p_password (params ctx))) ;;
              gpasswordEncrypted <- (if test_22 (p_cardnum (params ctx))
                                     then lift (encrypt token (presented_gpassword ctx))
                                     else ret "") ;;
              tokenEncrypted <- lift (encrypt (p_password (params ctx)) token) ;;
              db_update (by_cardnum_platform (p_cardnum (params ctx)) plat)
                        (mkPatch (Some passwordEncrypted) (Some gpasswordEncrypted)
                                 (Some tokenEncrypted)
                                 (Some (hash (p_password (params ctx)))) None)
            else ret tt) ;;
           ret (set_body ctx token)
         else login_new ctx (p_cardnum (params ctx)) (p_password (params ctx))
                        (presented_gpassword ctx) plat
     | None => login_new ctx (p_cardnum (params ctx)) (p_password (params ctx))
                         (presented_gpassword ctx) plat
     end) w.
Proof.
  intros (Hpath & Hmethod & Hplat & Hne).
  unfold module_exports, login, presented_gpassword.
  rewrite Hpath, Hmethod, Hplat. cbn [String.eqb Ascii.eqb Bool.eqb negb].
  assert (Ht : truthy plat = true).
  { unfold truthy. destruct (plat =? "")%string eqn:E; [|reflexivity].
    apply String.eqb_eq in E. contradiction. }
  rewrite Ht. reflexivity.
Qed.

Lemma truthy_true (s : string) : s <> "" -> truthy s = true.
Proof.
  intros Hne. unfold truthy. destruct (s =? "")%string eqn:E; [|reflexivity].
  apply String.eqb_eq in E. contradiction.
Qed.

Lemma login_new_accepted (ctx : Ctx) (cardnum password gpassword plat : string)
                         (profile : Profile) (w : World) :
  upstream_accepts ctx cardnum password gpassword profile ->
  exists te pe gpe,
    encrypt password (to_hex (randomBytes (draws w) 20)) = Ok te
    /\ encrypt (to_hex (randomBytes (draws w) 20)) password = Ok pe
    /\ (if test_22 cardnum
        then encrypt (to_hex (randomBytes (draws w) 20)) gpassword = Ok gpe
        else gpe = "")
    /\ login_new ctx cardnum password gpassword plat w
       = (Ok (set_body ctx (to_hex (randomBytes (draws w) 20))),
          mkWorld (auth_table w
                   ++ [mkAuthRecord cardnum (hash (to_hex (randomBytes (draws w) 20)))
                                    te pe (hash password) gpe
                                    (prof_name profile) (prof_schoolnum profile) plat
                                    (clock w) (clock w)])
                  (clock w) (S (draws w))
                  (upstream_log w ++ gateway_calls cardnum password gpassword)).
Proof.
  intros Hacc.
  set (token := to_hex (randomBytes (draws w) 20)).
  destruct (encrypt_returns password token) as (te & Hte).
  destruct (encrypt_returns token password) as (pe & Hpe).
  destruct (encrypt_returns token gpassword) as (gpe0 & Hgpe).
  exists te, pe, (if test_22 cardnum then gpe0 else "").
  split; [exact Hte|]. split; [exact Hpe|]. split.
  - destruct (test_22 cardnum); [exact Hgpe | reflexivity].
  - unfold login_new, bind. rewrite (auth_accepted _ _ _ _ _ _ Hacc).
    unfold random_bytes, lift, get_time, db_auth_insert, ret, with_table, log_calls.
    cbn. fold token. rewrite Hte, Hpe.
    destruct (test_22 cardnum); cbn; [rewrite Hgpe|]; reflexivity.
Qed.

(** C4: a login request for a (cardnum, platform) pair that has no row,
    accepted upstream, appends exactly one row to the table; the row has
    [registered] and [lastInvoked] both equal to the current time,
    [tokenHash = hash(token)] and [passwordHash = hash(password)], and the
    token set as the response body is what [decrypt(password,
    tokenEncrypted)] gives, while [decrypt(token, passwordEncrypted)] gives
    the password. *)
Theorem C4_first_login_inserts_one_record {laws : CryptoLaws}
    (ctx : Ctx) (next : Ctx -> M Ctx) (plat : string) (profile : Profile) (w : World) :
  login_request ctx plat ->
  find (matches (by_cardnum_platform (p_cardnum (params ctx)) plat)) (auth_table w) = None ->
  upstream_accepts ctx (p_cardnum (params ctx)) (p_password (params ctx))
                   (presented_gpassword ctx) profile ->
  exists token r ctx' w',
    module_exports ctx next w = (Ok ctx', w')
    /\ body ctx' = Some token
    /\ ctx' = set_body ctx token
    /\ token = to_hex (randomBytes (draws w) 20)
    /\ auth_table w' = (auth_table w ++ [r])%list
    /\ cardnum r = p_cardnum (params ctx)
    /\ platform r = plat
    /\ registered r = clock w
    /\ lastInvoked r = clock w
    /\ tokenHash r = hash token
    /\ passwordHash r = hash (p_password (params ctx))
    /\ decrypt (p_password (params ctx)) (tokenEncrypted r) = Ok token
    /\ decrypt token (passwordEncrypted r) = Ok (p_password (params ctx)).
Proof.
  intros Hreq Hnone Hacc.
  destruct (login_new_accepted ctx _ _ _ plat profile w Hacc)
    as (te & pe & gpe & Hte & Hpe & _ & Hrun).
  rewrite (login_request_runs ctx next plat w Hreq).
  unfold bind at 1. unfold db_auth_find. rewrite Hnone, Hrun.
  destruct (encrypt_decrypt (p_password (params ctx)) (to_hex (randomBytes (draws w) 20)))
    as (te' & Hte' & Hdt).
  destruct (encrypt_decrypt (to_hex (randomBytes (draws w) 20)) (p_password (params ctx)))
    as (pe' & Hpe' & Hdp).
  rewrite Hte in Hte'. injection Hte' as <-.
  rewrite Hpe in Hpe'. injection Hpe' as <-.
  do 4 eexists. split; [reflexivity|]. cbn.
  repeat split; assumption.
Qed.





Lemma find_app_last (f : Filter) (t : list AuthRecord) (r : AuthRecord) :
  find (matches f) t = None ->
  matches f r = true ->
  find (matches f) (t ++ [r]) = Some r.
Proof.
  intros Hnone Hm. induction t as [|x t IH]; cbn in *.
  - now rewrite Hm.
  - destruct (matches f x); [discriminate|]. now apply IH.
Qed.



(** What a re-login with a changed password does once upstream has
    accepted: it recomputes the three ciphertexts and the hash from the
    presented credentials and hands them, keyed on (cardnum, platform), to
    [db.update]; if that returns, the body is the token decrypted from the
    row. *)
Lemma relogin_changed_password_calls_db_update
    (ctx : Ctx) (next : Ctx -> M Ctx) (plat : string) (existing : AuthRecord)
    (token : string) (profile : Profile) (w : World) :
  login_request ctx plat ->
  find (matches (by_cardnum_platform (p_cardnum (params ctx)) plat)) (auth_table w)
  = Some existing ->
  decrypt (p_password (params ctx)) (tokenEncrypted existing) = Ok token ->
  token <> "" ->
  password_changed existing (p_cardnum (params ctx)) (p_password (params ctx))
                   (presented_gpassword ctx) token = Ok true ->
  upstream_accepts ctx (p_cardnum (params ctx)) (p_password (params ctx))
                   (presented_gpassword ctx) profile ->
  exists pe gpe te,
    encrypt token (p_password (params ctx)) = Ok pe
    /\ (if test_22 (p_cardnum (params ctx))
        then encrypt token (presented_gpassword ctx) = Ok gpe
        else gpe = "")
    /\ encrypt (p_password (params ctx)) token = Ok te
    /\ module_exports ctx next w
       = (db_update (by_cardnum_platform (p_cardnum (params ctx)) plat)
                    (mkPatch (Some pe) (Some gpe) (Some te)
                             (Some (hash (p_password (params ctx)))) None) ;;
          ret (set_body ctx token))
           (log_calls (gateway_calls (p_cardnum (params ctx)) (p_password (params ctx))
                                     (presented_gpassword ctx)) w).
Proof.
  intros Hreq Hfind Hdec Hne Hch Hacc.
  destruct (encrypt_returns token (p_password (params ctx))) as (pe & Hpe).
  destruct (encrypt_returns token (presented_gpassword ctx)) as (gpe0 & Hgpe).
  destruct (encrypt_returns (p_password (params ctx)) token) as (te & Hte).
  exists pe, (if test_22 (p_cardnum (params ctx)) then gpe0 else ""), te.
  split; [exact Hpe|]. split.
  { destruct (test_22 (p_cardnum (params ctx))); [exact Hgpe | reflexivity]. }
  split; [exact Hte|].
  rewrite (login_request_runs ctx next plat w Hreq).
  unfold bind at 1. unfold db_auth_find. rewrite Hfind.
  unfold bind at 1. unfold lift at 1. rewrite Hdec, (truthy_true token Hne).
  unfold bind at 1. unfold bind at 1. unfold lift at 1. rewrite Hch.
  unfold bind at 1. unfold bind at 1.
  rewrite (auth_accepted _ _ _ _ _ _ Hacc).
  unfold bind at 1. unfold lift at 1. rewrite Hpe.
  unfold bind at 1.
  destruct (test_22 (p_cardnum (params ctx))).
  - unfold lift at 1. rewrite Hgpe. unfold bind at 1. unfold lift at 1. rewrite Hte.
    reflexivity.
  - unfold ret at 1. unfold bind at 1. unfold lift at 1. rewrite Hte.
    reflexivity.
Qed.

(** The same path when [db.update] is taken to be the table's own
    [update]: the row keeps its token and gets the three ciphertexts and
    the hash recomputed from the presented credentials. *)
Lemma relogin_changed_password_if_db_update_is_table_update {laws : CryptoLaws}
    (ctx : Ctx) (next : Ctx -> M Ctx) (plat : string) (existing : AuthRecord)
    (token : string) (profile : Profile) (w : World) :
  (forall f p, db_update f p = db_auth_update f p) ->
  login_request ctx plat ->
  find (matches (by_cardnum_platform (p_cardnum (params ctx)) plat)) (auth_table w)
  = Some existing ->
  decrypt (p_password (params ctx)) (tokenEncrypted existing) = Ok token ->
  token <> "" ->
  password_changed existing (p_cardnum (params ctx)) (p_password (params ctx))
                   (presented_gpassword ctx) token = Ok true ->
  upstream_accepts ctx (p_cardnum (params ctx)) (p_password (params ctx))
                   (presented_gpassword ctx) profile ->
  exists pe gpe te w',
    module_exports ctx next w = (Ok (set_body ctx token), w')
    /\ auth_table w'
       = update_rows (by_cardnum_platform (p_cardnum (params ctx)) plat)
                     (mkPatch (Some pe) (Some gpe) (Some te)
                              (Some (hash (p_password (params ctx)))) None)
                     (auth_table w)
    /\ encrypt token (p_password (params ctx)) = Ok pe
    /\ decrypt token pe = Ok (p_password (params ctx))
    /\ encrypt (p_password (params ctx)) token = Ok te
    /\ decrypt (p_password (params ctx)) te = Ok token
    /\ (if test_22 (p_cardnum (params ctx))
        then encrypt token (presented_gpassword ctx) = Ok gpe
        else gpe = "").
Proof.
  intros Hupd Hreq Hfind Hdec Hne Hch Hacc.
  destruct (relogin_changed_password_calls_db_update ctx next plat existing token
              profile w Hreq Hfind Hdec Hne Hch Hacc)
    as (pe & gpe & te & Hpe & Hgpe & Hte & Hrun).
  exists pe, gpe, te. eexists.
  rewrite Hrun, Hupd. split; [reflexivity|]. cbn.
  destruct (encrypt_decrypt token (p_password (params ctx))) as (pe' & Hpe' & Hdp).
  destruct (encrypt_decrypt (p_password (params ctx)) token) as (te' & Hte' & Hdt).
  rewrite Hpe in Hpe'. injection Hpe' as <-.
  rewrite Hte in Hte'. injection Hte' as <-.
  repeat split; assumption.
Qed.



(** ** The passthrough and guest branches *)

Lemma passthrough_request_runs (ctx : Ctx) (next : Ctx -> M Ctx) (token : string) (w : World) :
  path ctx <> "/auth" ->
  headers_token ctx = Some token ->
  token <> "" ->
  module_exports ctx next w = passthrough ctx token next w.
Proof.
  intros Hpath Htok Hne. unfold module_exports.
  destruct (path ctx =? "/auth")%string eqn:E.
  - apply String.eqb_eq in E. contradiction.
  - now rewrite Htok, (truthy_true token Hne).
Qed.

Lemma update_rows_touch (h : string) (now : Z) (t : list AuthRecord) :
  update_rows (by_tokenHash h) (mkPatch None None None None (Some now)) t
  = map (fun r => if (h =? tokenHash r)%string then touch now r else r) t.
Proof.
  unfold update_rows. apply map_ext. intros r.
  unfold matches, by_tokenHash, field_matches. cbn.
  destruct (h =? tokenHash r)%string; reflexivity.
Qed.

Lemma find_some_in (f : Filter) (t : list AuthRecord) (r : AuthRecord) :
  find (matches f) t = Some r -> In r t /\ matches f r = true.
Proof.
  apply find_some.
Qed.

(** C5: a request outside [/auth] bearing a token whose hash is the
    [tokenHash] of a stored row reaches downstream with every row of that
    hash having [lastInvoked] set to the current time (later than the
    stored value whenever the clock has moved on) and no other field of any
    row changed; the identity handed downstream has [isLogin] true and its
    [password] is [decrypt(token, passwordEncrypted)], which is the password
    [passwordEncrypted] was produced from under that token. *)
Theorem C5_passthrough_touches_lastInvoked_and_exposes_password {laws : CryptoLaws}
    (ctx : Ctx) (next : Ctx -> M Ctx) (token : string) (record : AuthRecord) (w : World) :
  path ctx <> "/auth" ->
  headers_token ctx = Some token ->
  token <> "" ->
  find (matches (by_tokenHash (hash token))) (auth_table w) = Some record ->
  exists ctx' w' key info,
    module_exports ctx next w = next ctx' w'
    /\ auth_table w'
       = map (fun r => if (hash token =? tokenHash r)%string
                       then touch (clock w) r else r) (auth_table w)
    /\ In (touch (clock w) record) (auth_table w')
    /\ (lastInvoked record < clock w ->
        lastInvoked record < lastInvoked (touch (clock w) record))
    /\ clock w' = clock w
    /\ draws w' = draws w
    /\ upstream_log w' = upstream_log w
    /\ user ctx' = Some (LoginUser key info)
    /\ isLogin (LoginUser key info) = true
    /\ user_get (LoginUser key info) PisLogin = Ok (VBool true)
    /\ user_get (LoginUser key info) Ppassword = Ok (VStr (u_password info))
    /\ decrypt token (passwordEncrypted record) = Ok (u_password info)
    /\ (forall password, encrypt token password = Ok (passwordEncrypted record) ->
                         u_password info = password).
Proof.
  intros Hpath Htok Hne Hfind.
  destruct (decrypt_returns token (passwordEncrypted record)) as (password & Hpw).
  destruct (decrypt_returns token (gpasswordEncrypted record)) as (gp & Hgp).
  rewrite (passthrough_request_runs ctx next token w Hpath Htok Hne).
  unfold passthrough.
  unfold bind at 1. unfold db_auth_find. rewrite Hfind.
  unfold bind at 1. unfold get_time.
  unfold bind at 1. unfold db_auth_update.
  unfold bind at 1. unfold lift at 1. rewrite Hpw.
  unfold bind at 1.
  assert (Hin : In (touch (clock w) record)
                   (map (fun r => if (hash token =? tokenHash r)%string
                                  then touch (clock w) r else r) (auth_table w))).
  { apply find_some_in in Hfind as [Hin Hm].
    apply in_map_iff. exists record. split; [|assumption].
    unfold matches, by_tokenHash, field_matches in Hm. cbn in Hm. now rewrite Hm. }
  assert (Hinj : forall pw, encrypt token pw = Ok (passwordEncrypted record) -> password = pw).
  { intros pw Henc.
    destruct (encrypt_decrypt token pw) as (c & Hc & Hd).
    rewrite Henc in Hc. injection Hc as <-.
    rewrite Hpw in Hd. now injection Hd. }
  destruct (test_22 (cardnum record)).
  - unfold lift at 1. rewrite Hgp.
    do 4 eexists. split; [reflexivity|]. cbn.
    rewrite update_rows_touch.
    repeat split; try assumption; try reflexivity. intros H; exact H.
  - unfold ret at 1.
    do 4 eexists. split; [reflexivity|]. cbn.
    rewrite update_rows_touch.
    repeat split; try assumption; try reflexivity. intros H; exact H.
Qed.

(** C8: a request outside [/auth] that carries no token, or a token whose
    hash matches no row, reaches downstream with the guest identity and the
    world untouched, in the same way in both cases: [isLogin] reads as
    false without throwing, reading [encrypt], [decrypt], [identity],
    [cardnum], [password], [gpassword], [name], [schoolnum] or [platform]
    throws [401], and so does calling [useAuthCookie]. *)
Theorem C8_guest_identity_rejects_on_access
    (ctx : Ctx) (next : Ctx -> M Ctx) (w : World) :
  path ctx <> "/auth" ->
  (headers_token ctx = None
   \/ headers_token ctx = Some ""
   \/ exists token, headers_token ctx = Some token
                    /\ find (matches (by_tokenHash (hash token))) (auth_table w) = None) ->
  exists ctx',
    module_exports ctx next w = next ctx' w
    /\ ctx' = set_useAuthCookie (set_user ctx GuestUser) RejectCookie
    /\ user ctx' = Some GuestUser
    /\ isLogin GuestUser = false
    /\ user_get GuestUser PisLogin = Ok (VBool false)
    /\ (forall p, In p guarded_props -> user_get GuestUser p = Throw (ThrowNum 401))
    /\ (forall w0, call_useAuthCookie ctx' w0 = (Throw (ThrowNum 401), w0)).
Proof.
  intros Hpath Hcase.
  exists (set_useAuthCookie (set_user ctx GuestUser) RejectCookie).
  split.
  - unfold module_exports.
    destruct (path ctx =? "/auth")%string eqn:E.
    { apply String.eqb_eq in E. contradiction. }
    destruct Hcase as [Hnone | [Hempty | (token & Htok & Hfind)]].
    + now rewrite Hnone.
    + now rewrite Hempty.
    + rewrite Htok. destruct (truthy token); [|reflexivity].
      unfold passthrough, bind, db_auth_find. now rewrite Hfind.
  - repeat split.
    intros p Hp. cbn in Hp.
    repeat (destruct Hp as [<- | Hp]; [reflexivity|]). contradiction.
Qed.

(** ** Secondary identities *)

Lemma auth_result (ctx : Ctx) (cardnum password gpassword : string) (w : World) :
  fst (auth ctx cardnum password gpassword w)
  = match match_graduate cardnum with
    | Some subid =>
        match graduateAuthProvider ctx subid gpassword with
        | Ok _ => authProvider ctx cardnum password
        | Throw e => Throw e
        end
    | None => authProvider ctx cardnum password
    end.
Proof.
  unfold auth, try_catchM, bind, call_graduateAuthProvider, call_authProvider, ret, throw.
  destruct (match_graduate cardnum) as [subid|].
  - destruct (graduateAuthProvider ctx subid gpassword) as [u|e].
    + destruct (authProvider ctx cardnum password) as [profile|e]; [reflexivity|].
      destruct (is_401 e); [destruct (user ctx) as [[key info|]|]|]; reflexivity.
    + destruct (is_401 e); [destruct (user ctx) as [[key info|]|]|]; reflexivity.
  - destruct (authProvider ctx cardnum password) as [profile|e]; [reflexivity|].
    destruct (is_401 e); [destruct (user ctx) as [[key info|]|]|]; reflexivity.
Qed.

Lemma auth_log (ctx : Ctx) (cardnum password gpassword : string) (w : World) :
  upstream_log (snd (auth ctx cardnum password gpassword w))
  = (upstream_log w
     ++ match match_graduate cardnum with
        | Some subid =>
            CallGraduate subid gpassword
            :: match graduateAuthProvider ctx subid gpassword with
               | Ok _ => [CallPrimary cardnum password]
               | Throw _ => []
               end
        | None => [CallPrimary cardnum password]
        end)%list.
Proof.
  unfold auth, try_catchM, bind, call_graduateAuthProvider, call_authProvider, ret, throw.
  destruct (match_graduate cardnum) as [subid|].
  - destruct (graduateAuthProvider ctx subid gpassword) as [u|e].
    + destruct (authProvider ctx cardnum password) as [profile|e]; cbn;
        [now rewrite <- app_assoc|].
      destruct (is_401 e); [destruct (user ctx) as [[key info|]|]|]; cbn;
        now rewrite <- app_assoc.
    + destruct (is_401 e); [destruct (user ctx) as [[key info|]|]|]; reflexivity.
  - destruct (authProvider ctx cardnum password) as [profile|e]; [reflexivity|].
    destruct (is_401 e); [destruct (user ctx) as [[key info|]|]|]; reflexivity.
Qed.

Lemma presented_gpassword_given (ctx : Ctx) (g : string) :
  p_gpassword (params ctx) = Some g -> g <> "" -> presented_gpassword ctx = g.
Proof.
  intros Hg Hne. unfold presented_gpassword, or_default.
  now rewrite Hg, (truthy_true g Hne).
Qed.

Lemma first_login_stores_gpassword {laws : CryptoLaws}
    (ctx : Ctx) (next : Ctx -> M Ctx) (plat : string) (profile : Profile)
    (g : string) (w : World) :
  login_request ctx plat ->
  test_22 (p_cardnum (params ctx)) = true ->
  p_gpassword (params ctx) = Some g ->
  g <> "" ->
  find (matches (by_cardnum_platform (p_cardnum (params ctx)) plat)) (auth_table w) = None ->
  upstream_accepts ctx (p_cardnum (params ctx)) (p_password (params ctx)) g profile ->
  exists token r w',
    module_exports ctx next w = (Ok (set_body ctx token), w')
    /\ auth_table w' = (auth_table w ++ [r])%list
    /\ upstream_log w'
       = (upstream_log w
          ++ gateway_calls (p_cardnum (params ctx)) (p_password (params ctx)) g)%list
    /\ passwordHash r = hash (p_password (params ctx))
    /\ gpasswordEncrypted r <> ""
    /\ decrypt token (gpasswordEncrypted r) = Ok g.
Proof.
  intros Hreq H22 Hg Hne Hnone Hacc.
  pose proof (presented_gpassword_given ctx g Hg Hne) as Hpg.
  rewrite <- Hpg in Hacc.
  destruct (login_new_accepted ctx _ _ _ plat profile w Hacc)
    as (te & pe & gpe & _ & _ & Hgpe & Hrun).
  rewrite H22, Hpg in Hgpe.
  rewrite (login_request_runs ctx next plat w Hreq).
  unfold bind at 1. unfold db_auth_find. rewrite Hnone, Hrun.
  destruct (encrypt_decrypt (to_hex (randomBytes (draws w) 20)) g) as (gpe' & Hgpe' & Hd).
  rewrite Hgpe in Hgpe'. injection Hgpe' as <-.
  do 3 eexists. split; [reflexivity|]. cbn. rewrite Hpg.
  repeat split; try reflexivity; try assumption.
  exact (encrypt_nonempty _ g gpe Hne Hgpe).
Qed.

(** C9: for a card number matching [/^22\d*(\d{6})$/], the wrapper calls
    the graduate provider first, with the six captured digits and the
    secondary password; if that call throws, the wrapper throws the same
    value and the primary provider is not called; if it returns, the
    primary provider is called next with the card number and the password
    and its outcome is the wrapper's. A first login with such a card number
    and a secondary password [g], accepted upstream, stores a non-empty
    [gpasswordEncrypted] that decrypts under the returned token to [g]. *)
Theorem C9_graduate_provider_first_and_gpassword_stored {laws : CryptoLaws}
    (ctx : Ctx) (cardnum subid : string) :
  match_graduate cardnum = Some subid ->
  (forall password gpassword w,
      (forall e, graduateAuthProvider ctx subid gpassword = Throw e ->
         fst (auth ctx cardnum password gpassword w) = Throw e
         /\ upstream_log (snd (auth ctx cardnum password gpassword w))
            = (upstream_log w ++ [CallGraduate subid gpassword])%list)
      /\ (forall u, graduateAuthProvider ctx subid gpassword = Ok u ->
         fst (auth ctx cardnum password gpassword w) = authProvider ctx cardnum password
         /\ upstream_log (snd (auth ctx cardnum password gpassword w))
            = (upstream_log w
               ++ [CallGraduate subid gpassword; CallPrimary cardnum password])%list))
  /\ (forall next plat profile g w,
        login_request ctx plat ->
        p_cardnum (params ctx) = cardnum ->
        p_gpassword (params ctx) = Some g ->
        g <> "" ->
        find (matches (by_cardnum_platform cardnum plat)) (auth_table w) = None ->
        upstream_accepts ctx cardnum (p_password (params ctx)) g profile ->
        exists token r w',
          module_exports ctx next w = (Ok (set_body ctx token), w')
          /\ auth_table w' = (auth_table w ++ [r])%list
          /\ gpasswordEncrypted r <> ""
          /\ decrypt token (gpasswordEncrypted r) = Ok g).
Proof.
  intros Hm. split.
  - intros password gpassword w. split.
    + intros e He. rewrite auth_result, auth_log, Hm, He. split; reflexivity.
    + intros u Hu. rewrite auth_result, auth_log, Hm, Hu. split; reflexivity.
  - intros next plat profile g w Hreq Hc Hg Hne Hnone Hacc. subst cardnum.
    destruct (first_login_stores_gpassword ctx next plat profile g w Hreq
                (match_graduate_test_22 _ _ Hm) Hg Hne Hnone Hacc)
      as (token & r & w' & Hrun & Htab & _ & _ & Hnonempty & Hdec).
    exists token, r, w'. repeat split; assumption.
Qed.


(** A bound re-authentication that upstream rejects: the request came
    in with a token matching a row, downstream called [useAuthCookie], and
    the rows under that token's hash are gone when the [401] reaches the
    caller. *)
Lemma useAuthCookie_rejected_removes_record
    (ctx : Ctx) (token : string) (record : AuthRecord) (w : World) :
  path ctx <> "/auth" ->
  headers_token ctx = Some token ->
  token <> "" ->
  find (matches (by_tokenHash (hash token))) (auth_table w) = Some record ->
  (forall ctx' cardnum password gpassword,
      upstream_rejects ctx' cardnum password gpassword) ->
  exists w',
    module_exports ctx Demo.wants_cookie w = (Throw (ThrowNum 401), w')
    /\ (forall r, In r (auth_table w') -> tokenHash r <> hash token).
Proof.
  intros Hpath Htok Hne Hfind Hrej.
  destruct (decrypt_returns token (passwordEncrypted record)) as (password & Hpw).
  destruct (decrypt_returns token (gpasswordEncrypted record)) as (gp & Hgp).
  rewrite (passthrough_request_runs ctx _ token w Hpath Htok Hne).
  unfold passthrough.
  unfold bind at 1. unfold db_auth_find. rewrite Hfind.
  unfold bind at 1. unfold get_time.
  unfold bind at 1. unfold db_auth_update.
  unfold bind at 1. unfold lift at 1. rewrite Hpw.
  unfold bind at 1.
  destruct (test_22 (cardnum record)).
  - unfold lift at 1. rewrite Hgp.
    unfold Demo.wants_cookie, call_useAuthCookie, bind. cbn [useAuthCookie set_user set_useAuthCookie].
    match goal with
    | |- context [auth ?c ?n ?p ?g ?w0] =>
        destruct (auth_rejected c n p g w0 (Hrej c n p g)) as (calls & ->)
    end.
    eexists. split; [reflexivity|].
    intros r. unfold table_after_401. cbn. apply remove_rows_gone.
  - unfold ret at 1.
    unfold Demo.wants_cookie, call_useAuthCookie, bind. cbn [useAuthCookie set_user set_useAuthCookie].
    match goal with
    | |- context [auth ?c ?n ?p ?g ?w0] =>
        destruct (auth_rejected c n p g w0 (Hrej c n p g)) as (calls & ->)
    end.
    eexists. split; [reflexivity|].
    intros r. unfold table_after_401. cbn. apply remove_rows_gone.
Qed.

End Properties.

(** * Concrete runs *)

(** C1: a re-login whose credentials changed and are accepted upstream
    should end with the row for (cardnum, platform) rewritten from the new
    credentials. The graduate student of the demo logs in again with the
    same password and the secondary password "g2" in place of "g1": the
    stored token decrypts, the secondary passwords differ, both providers
    accept. The recomputed fields are then handed to [db.update], the
    [update] of the database module object, and to nothing else: whatever
    that member is, the middleware's outcome is its outcome. The table's
    own [update] is not called; with a module object that has no such
    function the request fails with a [TypeError] and the row still holds
    the old secondary password. *)
Theorem C1_relogin_changed_password_writes_through_db_update :
  let run update :=
    @module_exports Demo.crypto (Demo.imports (Ok Demo.profile) (Ok tt) update)
                    Demo.relogin_new_gpassword Demo.done Demo.after_first_login in
  (exists existing,
      find (matches (by_cardnum_platform "22012345" "app"))
           (auth_table Demo.after_first_login) = Some existing
      /\ @decrypt Demo.crypto Demo.accepting "p1" (tokenEncrypted existing)
         = Ok Demo.issued_token
      /\ @decrypt Demo.crypto Demo.accepting Demo.issued_token (gpasswordEncrypted existing)
         = Ok "g1")
  /\ (forall update,
        run update
        = (update (by_cardnum_platform "22012345" "app")
                  (mkPatch (Some "a5d594") (Some "a5c297")
                           (Some (tokenEncrypted Demo.stored_row))
                           (Some "p1") None) ;;
           ret (set_body Demo.relogin_new_gpassword Demo.issued_token))%js
            (log_calls [CallGraduate "012345" "g2"; CallPrimary "22012345" "p1"]
                       Demo.after_first_login))
  /\ fst (run Demo.no_update) = Throw (ThrowError "TypeError")
  /\ auth_table (snd (run Demo.no_update)) = auth_table Demo.after_first_login
  /\ (exists r,
        auth_table (snd (run Demo.no_update)) = [r]
        /\ @decrypt Demo.crypto Demo.accepting Demo.issued_token (gpasswordEncrypted r)
           = Ok "g1").
Proof.
  cbv zeta. split; [|split; [|split; [|split]]].
  - eexists. split; [vm_compute; reflexivity|]. split; vm_compute; reflexivity.
  - intros update. vm_compute. reflexivity.
  - vm_compute. reflexivity.
  - vm_compute. reflexivity.
  - eexists. split; vm_compute; reflexivity.
Qed.

Lemma demo_first_login_world :
  Demo.after_first_login
  = mkWorld [Demo.stored_row] 1000 1
            [CallGraduate "012345" "g1"; CallPrimary "22012345" "p1"].
Proof.
  vm_compute. reflexivity.
Qed.

Lemma demo_bearer_context :
  @module_exports Demo.crypto Demo.accepting Demo.bearer_request Demo.done
                  Demo.after_first_login
  = (Ok Demo.bearer_context,
     mkWorld [Demo.stored_row] 1000 1
             [CallGraduate "012345" "g1"; CallPrimary "22012345" "p1"]).
Proof.
  vm_compute. reflexivity.
Qed.

Lemma demo_login_request : login_request Demo.first_login "app".
Proof.
  repeat split. discriminate.
Qed.

(** The round trip on the demo cipher. *)
Lemma C6_round_trip_on_demo :
  @CryptoLaws Demo.crypto Demo.accepting
  /\ exists ciphertext,
       @encrypt Demo.crypto Demo.accepting "p1" Demo.issued_token = Ok ciphertext
       /\ @decrypt Demo.crypto Demo.accepting "p1" ciphertext = Ok Demo.issued_token.
Proof.
  split.
  - exact (demo_laws _ _ _).
  - exact (@C6_decrypt_encrypt_round_trip Demo.crypto Demo.accepting (demo_laws _ _ _)
             "p1" Demo.issued_token).
Defined.

(** Garbage and a wrong key on the demo cipher both come back empty. *)
Lemma C7_garbage_on_demo :
  @decrypt Demo.crypto Demo.accepting "p1" "not hex" = Ok ""
  /\ @decrypt Demo.crypto Demo.accepting "p2" (tokenEncrypted Demo.stored_row) = Ok "".
Proof.
  split.
  - exact (proj1 (proj2 (proj2 (@C7_crypto_wrappers_never_raise Demo.crypto Demo.accepting
                                  "p1" "not hex")))
                 (ThrowError "Error") eq_refl).
  - exact (proj1 (proj2 (proj2 (@C7_crypto_wrappers_never_raise Demo.crypto Demo.accepting
                                  "p2" (tokenEncrypted Demo.stored_row))))
                 (ThrowError "Error") eq_refl).
Defined.




(** The first login on an empty table. *)
Lemma C4_first_login_on_demo :
  login_request Demo.first_login "app"
  /\ exists token r ctx' w',
       @module_exports Demo.crypto Demo.accepting Demo.first_login Demo.done
                       Demo.empty_world
       = (Ok ctx', w')
       /\ body ctx' = Some token
       /\ auth_table w' = [r]
       /\ registered r = lastInvoked r
       /\ @decrypt Demo.crypto Demo.accepting "p1" (tokenEncrypted r) = Ok token.
Proof.
  split; [exact demo_login_request|].
  destruct (@C4_first_login_inserts_one_record Demo.crypto Demo.accepting (demo_laws _ _ _)
              Demo.first_login Demo.done "app" Demo.profile Demo.empty_world
              demo_login_request eq_refl (conj eq_refl eq_refl))
    as (token & r & ctx' & w' & Hrun & Hbody & _ & _ & Htab & _ & _ & Hreg & Hlast
        & _ & _ & Hdec & _).
  exists token, r, ctx', w'. split; [exact Hrun|]. split; [exact Hbody|].
  split; [exact Htab|]. split; [now rewrite Hreg, Hlast | exact Hdec].
Defined.

(** A bearer request a minute after the first login. *)
Lemma C5_bearer_request_on_demo :
  path Demo.bearer_request <> "/auth"
  /\ exists ctx' w' key info,
       @module_exports Demo.crypto Demo.accepting Demo.bearer_request Demo.done
                       (Demo.later Demo.after_first_login)
       = Demo.done ctx' w'
       /\ auth_table w' = [touch 61000 Demo.stored_row]
       /\ user ctx' = Some (LoginUser key info)
       /\ u_password info = "p1".
Proof.
  split; [discriminate|].
  destruct (@C5_passthrough_touches_lastInvoked_and_exposes_password
              Demo.crypto Demo.accepting (demo_laws _ _ _)
              Demo.bearer_request Demo.done Demo.issued_token Demo.stored_row
              (Demo.later Demo.after_first_login))
    as (ctx' & w' & key & info & Hrun & Htab & _ & _ & _ & _ & _ & Huser & _ & _ & _ & _ & Hpw).
  - discriminate.
  - reflexivity.
  - discriminate.
  - vm_compute. reflexivity.
  - exists ctx', w', key, info. split; [exact Hrun|]. split.
    + rewrite Htab. vm_compute. reflexivity.
    + split; [exact Huser|]. apply Hpw. vm_compute. reflexivity.
Defined.

(** A request without a token. *)
Lemma C8_anonymous_request_on_demo :
  path Demo.anonymous_request <> "/auth"
  /\ exists ctx',
       @module_exports Demo.crypto Demo.accepting Demo.anonymous_request Demo.done
                       Demo.after_first_login
       = Demo.done ctx' Demo.after_first_login
       /\ user ctx' = Some GuestUser
       /\ user_get GuestUser Pcardnum = Throw (ThrowNum 401).
Proof.
  split; [discriminate|].
  destruct (@C8_guest_identity_rejects_on_access Demo.crypto Demo.accepting
              Demo.anonymous_request Demo.done Demo.after_first_login)
    as (ctx' & Hrun & _ & Huser & _ & _ & Hprops & _).
  - discriminate.
  - left. reflexivity.
  - exists ctx'. split; [exact Hrun|]. split; [exact Huser|].
    apply Hprops. cbn. auto.
Defined.

(** The graduate student's first login stores the secondary password. *)
Lemma C9_graduate_login_on_demo :
  match_graduate "22012345" = Some "012345"
  /\ exists token r w',
       @module_exports Demo.crypto Demo.accepting Demo.first_login Demo.done
                       Demo.empty_world
       = (Ok (set_body Demo.first_login token), w')
       /\ gpasswordEncrypted r <> ""
       /\ @decrypt Demo.crypto Demo.accepting token (gpasswordEncrypted r) = Ok "g1".
Proof.
  split; [reflexivity|].
  destruct (proj2 (@C9_graduate_provider_first_and_gpassword_stored
                     Demo.crypto Demo.accepting (demo_laws _ _ _)
                     Demo.first_login "22012345" "012345" eq_refl)
                  Demo.done "app" Demo.profile "g1" Demo.empty_world
                  demo_login_request eq_refl eq_refl)
    as (token & r & w' & Hrun & _ & Hne & Hdec).
  - discriminate.
  - reflexivity.
  - split; reflexivity.
  - exists token, r, w'. repeat split; assumption.
Defined.


(** * Further properties of the middleware *)

Section FurtherProperties.

Context {crypto : NodeCrypto} {imports : Imports}.

(** A request to [/auth] whose verb, a string of 7-bit characters, is
    not POST after upper-casing ends in [405], whatever its parameters,
    the table and the providers; with POST but no platform, or an empty
    one, it ends in the missing-platform message. In both cases the world
    (table, clock, entropy, upstream log) is as before and downstream is
    not run. *)
Theorem login_refuses_wrong_verb_and_missing_platform
    (ctx : Ctx) (next : Ctx -> M Ctx) (w : World) :
  path ctx = "/auth" ->
  (ascii_only (method ctx) = true ->
   toUpperCase (method ctx) <> "POST" ->
   module_exports ctx next w = (Throw (ThrowNum 405), w))
  /\ (toUpperCase (method ctx) = "POST" ->
      p_platform (params ctx) = None \/ p_platform (params ctx) = Some "" ->
      module_exports ctx next w
      = (Throw (ThrowStr "缺少参数 platform: 必须指定平台名"), w)).
Proof.
  intros Hpath. unfold module_exports, login. rewrite Hpath. cbn [String.eqb Ascii.eqb Bool.eqb].
  split.
  - intros _ Hverb.
    destruct (toUpperCase (method ctx) =? "POST")%string eqn:E; [|reflexivity].
    apply String.eqb_eq in E. contradiction.
  - intros Hverb [Hnone | Hempty]; rewrite Hverb; cbn [String.eqb Ascii.eqb Bool.eqb negb].
    + now rewrite Hnone.
    + now rewrite Hempty.
Qed.

(** The table, clock and entropy after a call to the wrapper: the clock
    and the entropy counter never move, and the table is the one before the
    call except in one case, a thrown [401] with an authenticated identity
    on the context. Any other thrown value (a 500, a network error) leaves
    every row in place. *)
Theorem auth_touches_table_only_on_401_with_identity
    (ctx : Ctx) (cardnum password gpassword : string) (w : World) :
  clock (snd (auth ctx cardnum password gpassword w)) = clock w
  /\ draws (snd (auth ctx cardnum password gpassword w)) = draws w
  /\ auth_table (snd (auth ctx cardnum password gpassword w))
     = match fst (auth ctx cardnum password gpassword w), user ctx with
       | Throw e, Some (LoginUser _ info) =>
           if is_401 e then remove_rows (by_tokenHash (u_token info)) (auth_table w)
           else auth_table w
       | _, _ => auth_table w
       end.
Proof.
  unfold auth, try_catchM, bind, call_graduateAuthProvider, call_authProvider, ret, throw.
  destruct (match_graduate cardnum) as [subid|];
    [destruct (graduateAuthProvider ctx subid gpassword) as [u|e]|];
    try (destruct (authProvider ctx cardnum password) as [profile|e]);
    try (destruct (is_401 e) eqn:E401);
    destruct (user ctx) as [[key info|]|]; cbn; rewrite ?E401; repeat split.
Qed.

Lemma truthy_nonempty (s : string) : truthy s = true -> s <> "".
Proof.
  unfold truthy. intros H ->. discriminate H.
Qed.

Lemma login_new_answer {laws : CryptoLaws}
    (ctx : Ctx) (cardnum password gpassword plat : string) (w w' : World) (ctx' : Ctx) :
  login_new ctx cardnum password gpassword plat w = (Ok ctx', w') ->
  exists token, token <> "" /\ ctx' = set_body ctx token.
Proof.
  unfold login_new, bind, random_bytes, lift, get_time, db_auth_insert, ret.
  destruct (auth ctx cardnum password gpassword w) as [[profile|e] w1]; [|discriminate].
  cbn.
  destruct (encrypt password _) as [te|]; [|discriminate].
  destruct (encrypt _ password) as [pe|]; [|discriminate].
  destruct (test_22 cardnum); [destruct (encrypt _ gpassword) as [gpe|]; [|discriminate]|];
    cbn; intros [= <- _]; eexists; (split; [apply minted_token_nonempty | reflexivity]).
Qed.

(** Whenever a request to [/auth] returns normally, the response body
    is set to a non-empty token and the context is otherwise as it came
    in: the login branch sets neither [ctx.user] nor [ctx.useAuthCookie],
    whichever path it took. *)
Theorem login_answers_with_a_nonempty_token {laws : CryptoLaws}
    (ctx : Ctx) (next : Ctx -> M Ctx) (w w' : World) (ctx' : Ctx) :
  path ctx = "/auth" ->
  module_exports ctx next w = (Ok ctx', w') ->
  exists token,
    token <> ""
    /\ body ctx' = Some token
    /\ ctx' = set_body ctx token
    /\ user ctx' = user ctx
    /\ useAuthCookie ctx' = useAuthCookie ctx.
Proof.
  intros Hpath Hrun.
  assert (H : exists token, token <> "" /\ ctx' = set_body ctx token).
  { revert Hrun. unfold module_exports, login. rewrite Hpath.
    cbn [String.eqb Ascii.eqb Bool.eqb].
    destruct (negb _); [discriminate|].
    destruct (p_platform (params ctx)) as [plat|]; [|discriminate].
    destruct (negb (truthy plat)); [discriminate|].
    unfold bind at 1. unfold db_auth_find.
    destruct (find _ (auth_table w)) as [existing|]; [|apply login_new_answer].
    unfold bind at 1. unfold lift at 1.
    destruct (decrypt _ (tokenEncrypted existing)) as [token|]; [|discriminate].
    destruct (truthy token) eqn:Htruthy; [|apply login_new_answer].
    unfold bind, lift, ret.
    destruct (password_changed _ _ _ _ _) as [[|]|]; try discriminate.
    - destruct (auth _ _ _ _ w) as [[profile|e] w1]; [|discriminate].
      destruct (encrypt token _) as [pe|]; [|discriminate].
      destruct (test_22 _); [destruct (encrypt token _) as [gpe|]; [|discriminate]|];
        (destruct (encrypt _ token) as [te|]; [|discriminate]);
        (destruct (db_update _ _ w1) as [[u|e] w2]; [|discriminate]);
        intros [= <- _]; exists token; (split; [now apply truthy_nonempty | reflexivity]).
    - intros [= <- _]. exists token. split; [now apply truthy_nonempty | reflexivity]. }
  destruct H as (token & Hne & ->). exists token. repeat split; assumption.
Qed.

Lemma find_app_first (f : Filter) (t l : list AuthRecord) (r : AuthRecord) :
  find (matches f) t = Some r -> find (matches f) (t ++ l) = Some r.
Proof.
  induction t as [|x t IH]; cbn; [discriminate|].
  destruct (matches f x); [trivial | exact IH].
Qed.

Lemma login_undecryptable_runs
    (ctx : Ctx) (next : Ctx -> M Ctx) (plat : string) (existing : AuthRecord) (w : World) :
  login_request ctx plat ->
  find (matches (by_cardnum_platform (p_cardnum (params ctx)) plat)) (auth_table w)
  = Some existing ->
  decrypt (p_password (params ctx)) (tokenEncrypted existing) = Ok "" ->
  module_exports ctx next w
  = login_new ctx (p_cardnum (params ctx)) (p_password (params ctx))
              (presented_gpassword ctx) plat w.
Proof.
  intros Hreq Hfind Hdec.
  rewrite (login_request_runs ctx next plat w Hreq).
  unfold bind at 1. unfold db_auth_find. rewrite Hfind.
  unfold bind at 1. unfold lift at 1. rewrite Hdec. reflexivity.
Qed.

(** A login whose password does not decrypt the stored token (the
    decryption comes back empty) and that upstream accepts does not reuse
    or replace the row it found: it mints a new token and appends a second
    row for the same (cardnum, platform). The old row stays, and stays the
    one a lookup by (cardnum, platform) returns, so the same login sent
    again is in the same position and appends a third row under yet another
    token. *)
Theorem login_with_undecryptable_token_appends_another_row {laws : CryptoLaws}
    (ctx : Ctx) (next : Ctx -> M Ctx) (plat : string) (existing : AuthRecord)
    (profile : Profile) (w : World) :
  login_request ctx plat ->
  find (matches (by_cardnum_platform (p_cardnum (params ctx)) plat)) (auth_table w)
  = Some existing ->
  decrypt (p_password (params ctx)) (tokenEncrypted existing) = Ok "" ->
  upstream_accepts ctx (p_cardnum (params ctx)) (p_password (params ctx))
                   (presented_gpassword ctx) profile ->
  exists r1 w1 r2 w2,
    module_exports ctx next w
    = (Ok (set_body ctx (to_hex (randomBytes (draws w) 20))), w1)
    /\ auth_table w1 = (auth_table w ++ [r1])%list
    /\ cardnum r1 = p_cardnum (params ctx)
    /\ platform r1 = plat
    /\ tokenHash r1 = hash (to_hex (randomBytes (draws w) 20))
    /\ find (matches (by_cardnum_platform (p_cardnum (params ctx)) plat)) (auth_table w1)
       = Some existing
    /\ module_exports ctx next w1
       = (Ok (set_body ctx (to_hex (randomBytes (S (draws w)) 20))), w2)
    /\ auth_table w2 = (auth_table w ++ [r1; r2])%list
    /\ cardnum r2 = p_cardnum (params ctx)
    /\ platform r2 = plat
    /\ tokenHash r2 = hash (to_hex (randomBytes (S (draws w)) 20)).
Proof.
  intros Hreq Hfind Hdec Hacc.
  destruct (login_new_accepted ctx _ _ _ plat profile w Hacc)
    as (te & pe & gpe & _ & _ & _ & Hrun1).
  match type of Hrun1 with _ = (_, ?x) => set (w1 := x) in * end.
  assert (Hfind1 : find (matches (by_cardnum_platform (p_cardnum (params ctx)) plat))
                        (auth_table w1) = Some existing)
    by (apply find_app_first; exact Hfind).
  destruct (login_new_accepted ctx _ _ _ plat profile w1 Hacc)
    as (te2 & pe2 & gpe2 & _ & _ & _ & Hrun2).
  do 4 eexists.
  split; [rewrite (login_undecryptable_runs ctx next plat existing w Hreq Hfind Hdec);
          exact Hrun1|].
  split; [reflexivity|]. do 3 (split; [reflexivity|]).
  split; [exact Hfind1|].
  split; [rewrite (login_undecryptable_runs ctx next plat existing w1 Hreq Hfind1 Hdec);
          exact Hrun2|].
  cbn. rewrite <- app_assoc. repeat split.
Qed.

(** The wrapper turns to the graduate provider first, with sub-identity
    [subid], exactly when the card number is "22", then any number of
    digits, then the six digits [subid]; for every other card number the
    first call goes elsewhere. *)
Theorem graduate_provider_is_asked_exactly_for_the_pattern
    (ctx : Ctx) (cardnum password gpassword subid : string) (w : World) :
  (exists rest,
      upstream_log (snd (auth ctx cardnum password gpassword w))
      = (upstream_log w ++ CallGraduate subid gpassword :: rest)%list)
  <-> (exists mid,
          cardnum = ("22" ++ mid ++ subid)%string
          /\ all_digits mid = true
          /\ all_digits subid = true
          /\ String.length subid = 6%nat).
Proof.
  rewrite <- match_graduate_spec, auth_log. split.
  - intros (rest & H). apply app_inv_head in H.
    destruct (match_graduate cardnum) as [s|]; [|discriminate].
    now injection H as ->.
  - intros ->. eexists. reflexivity.
Qed.

Lemma hex_digits_lower (c : ascii) :
  is_lower_hex (hex_digit (N_of_ascii c / 16)) = true
  /\ is_lower_hex (hex_digit (N_of_ascii c mod 16)) = true.
Proof.
  destruct c as [[] [] [] [] [] [] [] []]; vm_compute; split; reflexivity.
Qed.

Lemma to_hex_lower (bytes : string) : all_lower_hex (to_hex bytes) = true.
Proof.
  induction bytes as [|c rest IH]; [reflexivity|].
  cbn [to_hex all_lower_hex].
  destruct (hex_digits_lower c) as [Hhi Hlo]. now rewrite Hhi, Hlo, IH.
Qed.

(** The token a first login sets as the response body is forty
    characters long, each a digit or a letter from [a] to [f]: twenty
    random bytes in hex. *)
Theorem minted_token_is_forty_hex_characters {laws : CryptoLaws}
    (ctx : Ctx) (next : Ctx -> M Ctx) (plat : string) (profile : Profile) (w : World) :
  login_request ctx plat ->
  find (matches (by_cardnum_platform (p_cardnum (params ctx)) plat)) (auth_table w) = None ->
  upstream_accepts ctx (p_cardnum (params ctx)) (p_password (params ctx))
                   (presented_gpassword ctx) profile ->
  exists token ctx' w',
    module_exports ctx next w = (Ok ctx', w')
    /\ body ctx' = Some token
    /\ String.length token = 40%nat
    /\ all_lower_hex token = true.
Proof.
  intros Hreq Hnone Hacc.
  destruct (login_new_accepted ctx _ _ _ plat profile w Hacc)
    as (te & pe & gpe & _ & _ & _ & Hrun).
  do 3 eexists. split.
  - rewrite (login_request_runs ctx next plat w Hreq).
    unfold bind at 1. unfold db_auth_find. rewrite Hnone. exact Hrun.
  - split; [reflexivity|].
    split; [now rewrite to_hex_length, randomBytes_length | apply to_hex_lower].
Qed.

Lemma find_none_fresh (h : string) (t : list AuthRecord) :
  (forall r, In r t -> tokenHash r <> h) ->
  find (matches (by_tokenHash h)) t = None.
Proof.
  intros Hfresh.
  destruct (find (matches (by_tokenHash h)) t) as [r|] eqn:E; [|reflexivity].
  apply find_some in E as [Hin Hm].
  unfold matches, by_tokenHash, field_matches in Hm. cbn in Hm.
  apply String.eqb_eq in Hm. exfalso. now apply (Hfresh r Hin).
Qed.

Lemma matches_own_tokenHash (r : AuthRecord) : matches (by_tokenHash (tokenHash r)) r = true.
Proof.
  unfold matches, by_tokenHash, field_matches. cbn. apply String.eqb_refl.
Qed.

(** Logging in and then sending the token of the response body with a
    request to another route: provided the hash of the minted token is not
    already a [tokenHash] in the table, the identity handed downstream
    carries the card number, password and
    platform of the login, the name and school number the provider
    returned, the secondary password of the login for a card number
    starting with 22 and the empty string otherwise; its [token] is the
    hash of the token, not the token, and its [identity] is the hash of
    card number and name joined. [useAuthCookie] is bound to the same
    credentials. *)
Theorem login_then_bearer_request_recovers_the_credentials {laws : CryptoLaws}
    (ctx bearer : Ctx) (next next' : Ctx -> M Ctx) (plat : string)
    (profile : Profile) (w : World) :
  login_request ctx plat ->
  find (matches (by_cardnum_platform (p_cardnum (params ctx)) plat)) (auth_table w) = None ->
  upstream_accepts ctx (p_cardnum (params ctx)) (p_password (params ctx))
                   (presented_gpassword ctx) profile ->
  (forall r, In r (auth_table w) ->
             tokenHash r <> hash (to_hex (randomBytes (draws w) 20))) ->
  path bearer <> "/auth" ->
  exists token answer w1,
    module_exports ctx next w = (Ok answer, w1)
    /\ body answer = Some token
    /\ (headers_token bearer = body answer ->
        exists w2,
          module_exports bearer next' w1
          = next'
              (set_user
                 (set_useAuthCookie bearer
                    (BoundAuth (p_cardnum (params ctx)) (p_password (params ctx))
                               (if test_22 (p_cardnum (params ctx))
                                then presented_gpassword ctx else "")))
                 (LoginUser token
                    (mkUserInfo (hash token)
                                (hash (p_cardnum (params ctx) ++ prof_name profile))
                                (p_cardnum (params ctx)) (p_password (params ctx))
                                (if test_22 (p_cardnum (params ctx))
                                 then presented_gpassword ctx else "")
                                (prof_name profile) (prof_schoolnum profile) plat)))
              w2).
Proof.
  intros Hreq Hnone Hacc Hfresh Hpath.
  destruct (login_new_accepted ctx _ _ _ plat profile w Hacc)
    as (te & pe & gpe & Hte & Hpe & Hgpe & Hrun).
  set (token := to_hex (randomBytes (draws w) 20)) in *.
  match type of Hrun with _ = (_, ?x) => set (w1 := x) in * end.
  exists token, (set_body ctx token), w1. split; [|split; [reflexivity|]].
  - rewrite (login_request_runs ctx next plat w Hreq).
    unfold bind at 1. unfold db_auth_find. rewrite Hnone. exact Hrun.
  - cbn [body set_body]. intros Htok.
    destruct (encrypt_decrypt token (p_password (params ctx))) as (pe' & Hpe' & Hdp).
    rewrite Hpe in Hpe'. injection Hpe' as <-.
    rewrite (passthrough_request_runs bearer next' token w1 Hpath Htok
               (minted_token_nonempty _)).
    unfold passthrough.
    unfold bind at 1. unfold db_auth_find.
    match goal with
    | |- context [find ?f (auth_table w1)] =>
        replace (find f (auth_table w1))
          with (Some (mkAuthRecord (p_cardnum (params ctx)) (hash token) te pe
                        (hash (p_password (params ctx))) gpe
                        (prof_name profile) (prof_schoolnum profile) plat
                        (clock w) (clock w)))
    end.
    2:{ symmetry. cbn [auth_table w1]. apply find_app_last.
        - now apply find_none_fresh.
        - apply (matches_own_tokenHash (mkAuthRecord _ _ _ _ _ _ _ _ _ _ _)). }
    unfold bind at 1. unfold get_time.
    unfold bind at 1. unfold db_auth_update.
    unfold bind at 1. unfold lift at 1. cbn [passwordEncrypted]. rewrite Hdp.
    unfold bind at 1. cbn [cardnum gpasswordEncrypted name schoolnum platform].
    destruct (test_22 (p_cardnum (params ctx))).
    + destruct (encrypt_decrypt token (presented_gpassword ctx)) as (g' & Hg' & Hdg).
      rewrite Hgpe in Hg'. injection Hg' as <-.
      unfold lift at 1. rewrite Hdg. eexists. reflexivity.
    + unfold ret at 1. eexists. reflexivity.
Qed.

(** A request bearing a stored token whose downstream asks for the
    upstream cookie: the providers are called with the card number of the
    row and the passwords decrypted from it under the token (the secondary
    one only for a card number starting with 22, the empty string
    otherwise); when they accept, the request goes through and the table
    differs from before only in [lastInvoked]. *)
Theorem cookie_request_reauthenticates_with_the_stored_credentials
    (ctx : Ctx) (token : string) (record : AuthRecord) (password gp : string)
    (profile : Profile) (w : World) :
  path ctx <> "/auth" ->
  headers_token ctx = Some token ->
  token <> "" ->
  find (matches (by_tokenHash (hash token))) (auth_table w) = Some record ->
  decrypt token (passwordEncrypted record) = Ok password ->
  (if test_22 (cardnum record)
   then decrypt token (gpasswordEncrypted record) = Ok gp
   else gp = "") ->
  (forall ctx', upstream_accepts ctx' (cardnum record) password gp profile) ->
  exists ctx' w',
    module_exports ctx Demo.wants_cookie w = (Ok ctx', w')
    /\ useAuthCookie ctx' = Some (BoundAuth (cardnum record) password gp)
    /\ upstream_log w'
       = (upstream_log w ++ gateway_calls (cardnum record) password gp)%list
    /\ auth_table w'
       = map (fun r => if (hash token =? tokenHash r)%string
                       then touch (clock w) r else r) (auth_table w).
Proof.
  intros Hpath Htok Hne Hfind Hpw Hgp Hacc.
  rewrite (passthrough_request_runs ctx _ token w Hpath Htok Hne).
  unfold passthrough.
  unfold bind at 1. unfold db_auth_find. rewrite Hfind.
  unfold bind at 1. unfold get_time.
  unfold bind at 1. unfold db_auth_update.
  unfold bind at 1. unfold lift at 1. rewrite Hpw.
  unfold bind at 1.
  destruct (test_22 (cardnum record)).
  - unfold lift at 1. rewrite Hgp.
    unfold Demo.wants_cookie, call_useAuthCookie, bind.
    cbn [useAuthCookie set_user set_useAuthCookie].
    rewrite (auth_accepted _ _ _ _ _ _ (Hacc _)).
    do 2 eexists. split; [reflexivity|]. cbn.
    rewrite update_rows_touch. repeat split.
  - subst gp. unfold ret at 1.
    unfold Demo.wants_cookie, call_useAuthCookie, bind.
    cbn [useAuthCookie set_user set_useAuthCookie].
    rewrite (auth_accepted _ _ _ _ _ _ (Hacc _)).
    do 2 eexists. split; [reflexivity|]. cbn.
    rewrite update_rows_touch. repeat split.
Qed.

(** After upstream has rejected with [401] the credentials stored
    under a token (the row's card number and the passwords decrypted from
    the row), that token is no longer recognised: the same request sent
    again is served as a guest. Nothing is assumed about what upstream
    answers to other credentials. *)
Theorem rejected_cookie_request_revokes_the_token
    (ctx : Ctx) (token : string) (record : AuthRecord) (password gp : string) (w : World) :
  path ctx <> "/auth" ->
  headers_token ctx = Some token ->
  token <> "" ->
  find (matches (by_tokenHash (hash token))) (auth_table w) = Some record ->
  decrypt token (passwordEncrypted record) = Ok password ->
  (if test_22 (cardnum record)
   then decrypt token (gpasswordEncrypted record) = Ok gp
   else gp = "") ->
  (forall ctx', upstream_rejects ctx' (cardnum record) password gp) ->
  exists w',
    module_exports ctx Demo.wants_cookie w = (Throw (ThrowNum 401), w')
    /\ (forall r, In r (auth_table w') -> tokenHash r <> hash token)
    /\ (forall next, module_exports ctx next w' = next (guest_context ctx) w').
Proof.
  intros Hpath Htok Hne Hfind Hpw Hgp Hrej.
  assert (Hrun : exists w',
             module_exports ctx Demo.wants_cookie w = (Throw (ThrowNum 401), w')
             /\ (forall r, In r (auth_table w') -> tokenHash r <> hash token)).
  { rewrite (passthrough_request_runs ctx _ token w Hpath Htok Hne).
    unfold passthrough.
    unfold bind at 1. unfold db_auth_find. rewrite Hfind.
    unfold bind at 1. unfold get_time.
    unfold bind at 1. unfold db_auth_update.
    unfold bind at 1. unfold lift at 1. rewrite Hpw.
    unfold bind at 1.
    destruct (test_22 (cardnum record)); [unfold lift at 1; rewrite Hgp | subst gp; unfold ret at 1];
      unfold Demo.wants_cookie, call_useAuthCookie, bind;
      cbn [useAuthCookie set_user set_useAuthCookie];
      match goal with
      | |- context [auth ?c ?n ?p ?g ?w0] =>
          destruct (auth_rejected c n p g w0 (Hrej c)) as (calls & ->)
      end;
      (eexists; split; [reflexivity|]);
      intros r; unfold table_after_401; cbn; apply remove_rows_gone. }
  destruct Hrun as (w' & Hrun & Hgone).
  exists w'. split; [exact Hrun|]. split; [exact Hgone|].
  intros next.
  rewrite (passthrough_request_runs ctx next token w' Hpath Htok Hne).
  unfold passthrough, bind, db_auth_find.
  now rewrite (find_none_fresh _ _ Hgone).
Qed.


(** A first login with a card number starting with 22 that sends no
    secondary password, or an empty one: the password stands in for it,
    both in the upstream calls and in the stored [gpasswordEncrypted]. *)
Theorem missing_secondary_password_defaults_to_the_password {laws : CryptoLaws}
    (ctx : Ctx) (next : Ctx -> M Ctx) (plat : string) (profile : Profile) (w : World) :
  login_request ctx plat ->
  p_gpassword (params ctx) = None \/ p_gpassword (params ctx) = Some "" ->
  test_22 (p_cardnum (params ctx)) = true ->
  find (matches (by_cardnum_platform (p_cardnum (params ctx)) plat)) (auth_table w) = None ->
  upstream_accepts ctx (p_cardnum (params ctx)) (p_password (params ctx))
                   (p_password (params ctx)) profile ->
  exists token r w',
    module_exports ctx next w = (Ok (set_body ctx token), w')
    /\ auth_table w' = (auth_table w ++ [r])%list
    /\ decrypt token (gpasswordEncrypted r) = Ok (p_password (params ctx))
    /\ upstream_log w'
       = (upstream_log w
          ++ gateway_calls (p_cardnum (params ctx)) (p_password (params ctx))
                           (p_password (params ctx)))%list.
Proof.
  intros Hreq Hg H22 Hnone Hacc.
  assert (Hpg : presented_gpassword ctx = p_password (params ctx)).
  { unfold presented_gpassword, or_default. destruct Hg as [-> | ->]; reflexivity. }
  rewrite <- Hpg in Hacc at 2.
  destruct (login_new_accepted ctx _ _ _ plat profile w Hacc)
    as (te & pe & gpe & _ & _ & Hgpe & Hrun).
  rewrite H22 in Hgpe.
  destruct (encrypt_decrypt (to_hex (randomBytes (draws w) 20)) (presented_gpassword ctx))
    as (g' & Hg' & Hdg).
  rewrite Hgpe in Hg'. injection Hg' as <-.
  do 3 eexists. split.
  - rewrite (login_request_runs ctx next plat w Hreq).
    unfold bind at 1. unfold db_auth_find. rewrite Hnone. exact Hrun.
  - cbn. rewrite Hpg in Hdg |- *. repeat split. exact Hdg.
Qed.

Lemma password_changed_returns
    (existing : AuthRecord) (cardnum password gpassword token : string) :
  exists changed, password_changed existing cardnum password gpassword token = Ok changed.
Proof.
  unfold password_changed.
  destruct (negb _); [eauto|].
  destruct (test_22 cardnum); [|eauto].
  destruct (decrypt_returns token (gpasswordEncrypted existing)) as (stored & ->).
  cbn. eauto.
Qed.

(** A login that upstream would reject, on a context without identity,
    never writes to the table. It ends in [401], with one exception: when
    the table holds a row whose token the password decrypts and whose
    hashes agree with the request, upstream is not asked and the stored
    token is returned. *)
Theorem login_that_upstream_rejects_never_writes
    (ctx : Ctx) (next : Ctx -> M Ctx) (plat : string) (w : World) :
  user ctx = None ->
  login_request ctx plat ->
  upstream_rejects ctx (p_cardnum (params ctx)) (p_password (params ctx))
                   (presented_gpassword ctx) ->
  auth_table (snd (module_exports ctx next w)) = auth_table w
  /\ (fst (module_exports ctx next w) = Throw (ThrowNum 401)
      \/ exists existing token,
           find (matches (by_cardnum_platform (p_cardnum (params ctx)) plat))
                (auth_table w) = Some existing
           /\ decrypt (p_password (params ctx)) (tokenEncrypted existing) = Ok token
           /\ token <> ""
           /\ password_changed existing (p_cardnum (params ctx)) (p_password (params ctx))
                               (presented_gpassword ctx) token = Ok false
           /\ module_exports ctx next w = (Ok (set_body ctx token), w)).
Proof.
  intros Huser Hreq Hrej.
  destruct (auth_rejected ctx _ _ _ w Hrej) as (calls & Hauth).
  unfold table_after_401 in Hauth. rewrite Huser in Hauth.
  assert (Hnew : login_new ctx (p_cardnum (params ctx)) (p_password (params ctx))
                           (presented_gpassword ctx) plat w
                 = (Throw (ThrowNum 401), with_table (log_calls calls w) (auth_table w))).
  { unfold login_new. unfold bind at 1. now rewrite Hauth. }
  assert (Hcases :
    module_exports ctx next w
    = (Throw (ThrowNum 401), with_table (log_calls calls w) (auth_table w))
    \/ exists existing token,
         find (matches (by_cardnum_platform (p_cardnum (params ctx)) plat))
              (auth_table w) = Some existing
         /\ decrypt (p_password (params ctx)) (tokenEncrypted existing) = Ok token
         /\ token <> ""
         /\ password_changed existing (p_cardnum (params ctx)) (p_password (params ctx))
                             (presented_gpassword ctx) token = Ok false
         /\ module_exports ctx next w = (Ok (set_body ctx token), w)).
  { pose proof (login_request_runs ctx next plat w Hreq) as Hruns.
    unfold bind at 1 in Hruns. unfold db_auth_find in Hruns.
    destruct (find _ (auth_table w)) as [existing|] eqn:Hfind.
    2:{ left. rewrite Hruns. exact Hnew. }
    destruct (decrypt_returns (p_password (params ctx)) (tokenEncrypted existing))
      as (token & Hdec).
    unfold bind at 1 in Hruns. unfold lift at 1 in Hruns. rewrite Hdec in Hruns.
    destruct (truthy token) eqn:Htruthy.
    2:{ left. rewrite Hruns. exact Hnew. }
    destruct (password_changed_returns existing (p_cardnum (params ctx))
                (p_password (params ctx)) (presented_gpassword ctx) token) as ([|] & Hch);
      unfold bind at 1 in Hruns; unfold bind at 1 in Hruns; unfold lift at 1 in Hruns;
      rewrite Hch in Hruns.
    - left. unfold bind at 1 in Hruns. unfold bind at 1 in Hruns.
      rewrite Hauth in Hruns. exact Hruns.
    - right. exists existing, token.
      repeat split; try assumption; try reflexivity. now apply truthy_nonempty. }
  destruct Hcases as [Hrun | (existing & token & Hfind & Hdec & Hne & Hch & Hrun)].
  - rewrite Hrun. split; [reflexivity | left; reflexivity].
  - split; [now rewrite Hrun|]. right. exists existing, token. repeat split; assumption.
Qed.

End FurtherProperties.

(** ** The further properties on the demo *)

Lemma refused_logins_on_demo :
  path Scenario.get_login = "/auth"
  /\ @module_exports Demo.crypto Demo.accepting Scenario.get_login Demo.done
                     Demo.after_first_login
     = (Throw (ThrowNum 405), Demo.after_first_login)
  /\ path Scenario.login_without_platform = "/auth"
  /\ fst (@module_exports Demo.crypto Demo.accepting Scenario.login_without_platform
                          Demo.done Demo.after_first_login)
     = Throw (ThrowStr "缺少参数 platform: 必须指定平台名").
Proof.
  split; [reflexivity|]. split.
  - apply (proj1 (@login_refuses_wrong_verb_and_missing_platform Demo.crypto Demo.accepting
                    Scenario.get_login Demo.done Demo.after_first_login eq_refl) eq_refl).
    discriminate.
  - split; [reflexivity|].
    rewrite (proj2 (@login_refuses_wrong_verb_and_missing_platform Demo.crypto Demo.accepting
                      Scenario.login_without_platform Demo.done Demo.after_first_login
                      eq_refl) eq_refl (or_introl eq_refl)).
    reflexivity.
Defined.

Lemma login_answer_on_demo :
  path Demo.first_login = "/auth"
  /\ exists token ctx',
       token <> ""
       /\ fst (@module_exports Demo.crypto Demo.accepting Demo.first_login Demo.done
                               Demo.empty_world)
          = Ok ctx'
       /\ body ctx' = Some token.
Proof.
  split; [reflexivity|].
  destruct (@login_answers_with_a_nonempty_token Demo.crypto Demo.accepting (demo_laws _ _ _)
              Demo.first_login Demo.done Demo.empty_world Demo.after_first_login
              (set_body Demo.first_login Demo.issued_token) eq_refl)
    as (token & Hne & Hbody & _).
  - vm_compute. reflexivity.
  - exists token, (set_body Demo.first_login Demo.issued_token).
    split; [exact Hne|]. split; [vm_compute; reflexivity | exact Hbody].
Defined.

Lemma new_password_on_demo :
  login_request Scenario.login_new_password "app"
  /\ exists r1 w1,
       @module_exports Demo.crypto Demo.accepting Scenario.login_new_password Demo.done
                       Demo.after_first_login
       = (Ok (set_body Scenario.login_new_password
                       "4242424242424242424242424242424242424242"), w1)
       /\ auth_table w1 = [Demo.stored_row; r1]
       /\ platform r1 = "app".
Proof.
  assert (Hreq : login_request Scenario.login_new_password "app")
    by (repeat split; discriminate).
  split; [exact Hreq|].
  destruct (@login_with_undecryptable_token_appends_another_row
              Demo.crypto Demo.accepting (demo_laws _ _ _)
              Scenario.login_new_password Demo.done "app" Demo.stored_row Demo.profile
              Demo.after_first_login Hreq)
    as (r1 & w1 & r2 & w2 & Hrun & Htab & _ & Hplat & _).
  - vm_compute. reflexivity.
  - vm_compute. reflexivity.
  - split; reflexivity.
  - exists r1, w1. split; [exact Hrun|]. split; [exact Htab | exact Hplat].
Defined.

Lemma minted_token_on_demo :
  login_request Demo.first_login "app"
  /\ exists token ctx' w',
       @module_exports Demo.crypto Demo.accepting Demo.first_login Demo.done Demo.empty_world
       = (Ok ctx', w')
       /\ body ctx' = Some token
       /\ String.length token = 40%nat.
Proof.
  split; [exact demo_login_request|].
  destruct (@minted_token_is_forty_hex_characters Demo.crypto Demo.accepting (demo_laws _ _ _)
              Demo.first_login Demo.done "app" Demo.profile Demo.empty_world
              demo_login_request eq_refl (conj eq_refl eq_refl))
    as (token & ctx' & w' & Hrun & Hbody & Hlen & _).
  exists token, ctx', w'. repeat split; assumption.
Defined.

Lemma login_then_bearer_on_demo :
  login_request Demo.first_login "app"
  /\ exists token answer w1,
       @module_exports Demo.crypto Demo.accepting Demo.first_login Demo.done Demo.empty_world
       = (Ok answer, w1)
       /\ body answer = Some token
       /\ (headers_token Demo.bearer_request = body answer ->
           exists w2,
             @module_exports Demo.crypto Demo.accepting Demo.bearer_request Demo.done w1
             = (Ok Demo.bearer_context, w2)).
Proof.
  split; [exact demo_login_request|].
  destruct (@login_then_bearer_request_recovers_the_credentials
              Demo.crypto Demo.accepting (demo_laws _ _ _)
              Demo.first_login Demo.bearer_request Demo.done Demo.done "app" Demo.profile
              Demo.empty_world demo_login_request eq_refl (conj eq_refl eq_refl))
    as (token & answer & w1 & Hrun & Hbody & Hbearer).
  - intros r [].
  - discriminate.
  - exists token, answer, w1. split; [exact Hrun|]. split; [exact Hbody|].
    intros Htok. destruct (Hbearer Htok) as (w2 & Hrun2).
    exists w2. rewrite Hrun2.
    rewrite Hbody in Htok. injection Htok as <-. reflexivity.
Defined.

Lemma cookie_request_on_demo :
  path Demo.bearer_request <> "/auth"
  /\ exists ctx' w',
       @module_exports Demo.crypto Demo.accepting Demo.bearer_request
                       (@Demo.wants_cookie Demo.crypto Demo.accepting) Demo.after_first_login
       = (Ok ctx', w')
       /\ upstream_log w'
          = [CallGraduate "012345" "g1"; CallPrimary "22012345" "p1";
             CallGraduate "012345" "g1"; CallPrimary "22012345" "p1"].
Proof.
  split; [discriminate|].
  destruct (@cookie_request_reauthenticates_with_the_stored_credentials
              Demo.crypto Demo.accepting Demo.bearer_request Demo.issued_token
              Demo.stored_row "p1" "g1" Demo.profile Demo.after_first_login)
    as (ctx' & w' & Hrun & _ & Hlog & _).
  - discriminate.
  - reflexivity.
  - discriminate.
  - vm_compute. reflexivity.
  - vm_compute. reflexivity.
  - vm_compute. reflexivity.
  - intros ctx'. split; reflexivity.
  - exists ctx', w'. split; [exact Hrun|]. rewrite Hlog. vm_compute. reflexivity.
Defined.

Lemma revoked_token_on_demo :
  path Demo.bearer_request <> "/auth"
  /\ (forall ctx', @upstream_rejects Demo.rejecting ctx' "22012345" "p1" "g1")
  /\ exists w',
       @module_exports Demo.crypto Demo.rejecting Demo.bearer_request
                       (@Demo.wants_cookie Demo.crypto Demo.rejecting) Demo.after_first_login
       = (Throw (ThrowNum 401), w')
       /\ @module_exports Demo.crypto Demo.rejecting Demo.bearer_request Demo.done w'
          = (Ok (guest_context Demo.bearer_request), w').
Proof.
  split; [discriminate|].
  assert (Hrej : forall ctx', @upstream_rejects Demo.rejecting ctx' "22012345" "p1" "g1")
    by (intros ctx'; left; reflexivity).
  split; [exact Hrej|].
  destruct (@rejected_cookie_request_revokes_the_token
              Demo.crypto Demo.rejecting Demo.bearer_request Demo.issued_token
              Demo.stored_row "p1" "g1" Demo.after_first_login)
    as (w' & Hrun & _ & Hguest).
  - discriminate.
  - reflexivity.
  - discriminate.
  - vm_compute. reflexivity.
  - vm_compute. reflexivity.
  - vm_compute. reflexivity.
  - exact Hrej.
  - exists w'. split; [exact Hrun | exact (Hguest Demo.done)].
Defined.


Lemma no_gpassword_on_demo :
  login_request Scenario.login_no_gpassword "app"
  /\ exists token r w',
       @module_exports Demo.crypto Demo.accepting Scenario.login_no_gpassword Demo.done
                       Demo.empty_world
       = (Ok (set_body Scenario.login_no_gpassword token), w')
       /\ @decrypt Demo.crypto Demo.accepting token (gpasswordEncrypted r) = Ok "p1"
       /\ upstream_log w' = [CallGraduate "012345" "p1"; CallPrimary "22012345" "p1"].
Proof.
  assert (Hreq : login_request Scenario.login_no_gpassword "app")
    by (repeat split; discriminate).
  split; [exact Hreq|].
  destruct (@missing_secondary_password_defaults_to_the_password
              Demo.crypto Demo.accepting (demo_laws _ _ _)
              Scenario.login_no_gpassword Demo.done "app" Demo.profile Demo.empty_world
              Hreq (or_introl eq_refl) eq_refl eq_refl (conj eq_refl eq_refl))
    as (token & r & w' & Hrun & _ & Hdec & Hlog).
  exists token, r, w'. split; [exact Hrun|]. split; [exact Hdec | exact Hlog].
Defined.

(** Upstream down while a token holder asks for the cookie: the 500
    reaches the caller and the row stays. *)
Lemma upstream_down_on_demo :
  fst (@auth Scenario.unavailable Demo.bearer_context "22012345" "p1" "g1"
             Demo.after_first_login)
  = Throw (ThrowNum 500)
  /\ auth_table (snd (@auth Scenario.unavailable Demo.bearer_context "22012345" "p1" "g1"
                            Demo.after_first_login))
     = [Demo.stored_row].
Proof.
  split; [reflexivity|].
  rewrite (proj2 (proj2 (@auth_touches_table_only_on_401_with_identity Scenario.unavailable
                           Demo.bearer_context "22012345" "p1" "g1"
                           Demo.after_first_login))).
  vm_compute. reflexivity.
Defined.

(** * Properties of the lost-and-found route *)

Section RouteProperties.

Import LostAndFound.

Context {site : Site}.

Lemma cardnum_of_login (key : string) (info : UserInfo) (s : Store) :
  cardnum_of (LoginUser key info) s = (Ok (u_cardnum info), s).
Proof.
  reflexivity.
Qed.

Lemma is_admin_iff (cardnum : string) : is_admin cardnum = true <-> In cardnum adminList.
Proof.
  unfold is_admin. rewrite existsb_exists. split.
  - intros (a & Hin & Heq). apply String.eqb_eq in Heq. now subst.
  - intros Hin. exists cardnum. split; [assumption | apply String.eqb_refl].
Qed.

Lemma cell_is_iff (cardnum : string) (c : Cell) :
  cell_is cardnum c = true <-> c = CStr cardnum.
Proof.
  destruct c; cbn; split; try discriminate.
  - intros H. apply String.eqb_eq in H. now subst.
  - intros [= ->]. apply String.eqb_refl.
Qed.

Lemma forEach_deleteFile_runs (urls : list string) (s : Store) :
  forEach_deleteFile urls s = (Ok tt, without urls s).
Proof.
  revert s. induction urls as [|url rest IH]; intros s; cbn.
  - unfold rret, without. now rewrite app_nil_r; destruct s.
  - unfold rbind, deleteFile. rewrite IH. unfold without. cbn.
    now rewrite <- app_assoc.
Qed.

Lemma delete_images_runs (imageUrl : Cell) (s : Store) :
  string_or_falsy imageUrl = true ->
  delete_images imageUrl s = (Ok tt, without (image_files imageUrl) s).
Proof.
  unfold delete_images, image_files, string_or_falsy.
  destruct imageUrl as [| |n|urls]; cbn; intros H.
  - unfold rret, without. now rewrite app_nil_r; destruct s.
  - unfold rret, without. now rewrite app_nil_r; destruct s.
  - rewrite H. cbn. unfold rret, without. now rewrite app_nil_r; destruct s.
  - destruct (truthy urls); [apply forEach_deleteFile_runs|].
    unfold rret, without. now rewrite app_nil_r; destruct s.
Qed.

(** A guest is turned away by every handler with [401] before any
    statement is sent or any file deleted, whatever the parameters. *)
Theorem guest_is_turned_away_by_every_handler
    (id type title describe imageUrl : option string) (page pagesize : Param) (s : Store) :
  get GuestUser id type page pagesize s = (Throw (ThrowNum 401), s)
  /\ post GuestUser type title describe imageUrl s = (Throw (ThrowNum 401), s)
  /\ put GuestUser id title describe imageUrl s = (Throw (ThrowNum 401), s)
  /\ delete GuestUser id s = (Throw (ThrowNum 401), s).
Proof.
  repeat split.
Qed.

(** [delete] by someone who is neither the creator of the item nor an
    administrator: [401], and apart from the lookup no statement is sent
    and no file is deleted. *)
Theorem delete_needs_the_creator_or_an_administrator
    (key : string) (info : UserInfo) (id : option string)
    (first : list Cell) (others : list (list Cell)) (affected : Z) (s : Store) :
  db_answer (sent s) (SelectById (interpolate id))
  = Ok (mkDbResult (first :: others) affected) ->
  nth 1 first CUndefined <> CStr (u_cardnum info) ->
  ~ In (u_cardnum info) adminList ->
  delete (LoginUser key info) id s
  = (Throw (ThrowNum 401), after (SelectById (interpolate id)) s).
Proof.
  intros Hsel Hcreator Hadmin.
  unfold delete, rbind. rewrite cardnum_of_login. unfold execute. rewrite Hsel. cbn.
  destruct (cell_is (u_cardnum info) (nth 1 first CUndefined)) eqn:Hc.
  { apply cell_is_iff in Hc. contradiction. }
  destruct (is_admin (u_cardnum info)) eqn:Ha.
  { apply is_admin_iff in Ha. contradiction. }
  reflexivity.
Qed.

(** [delete] by the creator or by an administrator, of an item whose
    [imageUrl] is a string or empty: every file named between the bars of
    [imageUrl] goes to [deleteFile], in order, then the delete statement
    is sent; the reply is the success text when a row was affected and
    the failure text is thrown otherwise, the files being gone in both
    cases. *)
Theorem delete_by_creator_or_administrator_removes_item_and_images
    (key : string) (info : UserInfo) (id : option string)
    (first : list Cell) (others : list (list Cell)) (affected : Z)
    (result : DbResult) (s : Store) :
  db_answer (sent s) (SelectById (interpolate id))
  = Ok (mkDbResult (first :: others) affected) ->
  nth 1 first CUndefined = CStr (u_cardnum info) \/ In (u_cardnum info) adminList ->
  string_or_falsy (nth 5 first CUndefined) = true ->
  db_answer (sent s ++ [SelectById (interpolate id)]) (DeleteById (interpolate id))
  = Ok result ->
  delete (LoginUser key info) id s
  = (if rowsAffected result >? 0 then Ok (ReplyText "删除成功")
     else Throw (ThrowStr "删除失败"),
     after (DeleteById (interpolate id))
           (without (image_files (nth 5 first CUndefined))
                    (after (SelectById (interpolate id)) s))).
Proof.
  intros Hsel Hallowed Himg Hdel.
  unfold delete, rbind. rewrite cardnum_of_login. unfold execute at 1. rewrite Hsel. cbn.
  replace (cell_is (u_cardnum info) (nth 1 first CUndefined) || is_admin (u_cardnum info))
    with true.
  2:{ symmetry. apply orb_true_iff. destruct Hallowed as [Hc | Ha].
      - left. now apply cell_is_iff.
      - right. now apply is_admin_iff. }
  cbn. rewrite (delete_images_runs _ _ Himg). unfold execute. cbn. rewrite Hdel. cbn.
  destruct (rowsAffected result >? 0); reflexivity.
Qed.

(** [delete] of an id the lookup finds nothing for: a [TypeError], and
    nothing but the lookup is sent. The missing-item message is never
    thrown by the handler itself: when it comes out, the database threw
    it. *)
Theorem delete_of_a_missing_item_raises_a_TypeError
    (u : User) (id : option string) (s : Store) :
  (forall key info affected,
      u = LoginUser key info ->
      db_answer (sent s) (SelectById (interpolate id)) = Ok (mkDbResult [] affected) ->
      delete u id s
      = (Throw (ThrowError "TypeError"), after (SelectById (interpolate id)) s))
  /\ (fst (delete u id s) = Throw (ThrowStr "事务不存在") ->
      exists history statement,
        db_answer history statement = Throw (ThrowStr "事务不存在")).
Proof.
  split.
  - intros key info affected -> Hsel.
    unfold delete, rbind. rewrite cardnum_of_login. unfold execute. now rewrite Hsel.
  - destruct u as [key info|]; [|discriminate].
    unfold delete, rbind. rewrite cardnum_of_login. unfold execute at 1.
    destruct (db_answer (sent s) (SelectById (interpolate id))) as [result|e] eqn:Hsel.
    2:{ cbn. intros [= ->]. eauto. }
    cbn. destruct (map (item_of_row false) (rows result)) as [|record rest]; cbn;
      [discriminate|].
    destruct (negb _); cbn; [discriminate|].
    destruct (delete_images _ _) as [[[]|e] s'] eqn:Himg; cbn.
    + unfold execute.
      destruct (db_answer _ (DeleteById _)) as [res|e] eqn:Hdel; cbn.
      * destruct (rowsAffected res >? 0); discriminate.
      * intros [= ->]. eauto.
    + intros [= ->]. unfold delete_images in Himg.
      destruct (cell_truthy _); [|discriminate Himg].
      destruct (LostAndFound.imageUrl record); try discriminate Himg.
      rewrite forEach_deleteFile_runs in Himg. discriminate Himg.
Qed.

Lemma lacks_false_iff (haystack needle : string) :
  needle <> "" ->
  lacks haystack needle = false
  <-> exists m, substring m (String.length needle) haystack = needle.
Proof.
  intros Hne. unfold lacks. split.
  - destruct (index 0 needle haystack) as [m|] eqn:E; [|discriminate].
    intros _. exists m. exact (index_correct1 _ _ _ _ E).
  - intros (m & Hm).
    destruct (index 0 needle haystack) as [k|] eqn:E; [reflexivity|].
    exfalso. exact (index_correct3 0 m needle haystack E Hne (Nat.le_0_l m) Hm).
Qed.

Lemma foreign_image_false_iff (imageUrl : option string) (cardnum : string) :
  foreign_image imageUrl cardnum = false <-> own_image imageUrl cardnum.
Proof.
  unfold foreign_image, own_image. destruct imageUrl as [url|]; [|tauto].
  unfold truthy. destruct (url =? "")%string eqn:E; cbn.
  - apply String.eqb_eq in E. tauto.
  - apply String.eqb_neq in E.
    rewrite (lacks_false_iff url ("lf-" ++ cardnum)) by discriminate. tauto.
Qed.

(** [post] refuses, in this order and before sending anything: a type
    other than "lost" and "found"; a missing or empty title; an image
    string that is not empty and has [lf-<cardnum>] nowhere in it. *)
Theorem post_refuses_invalid_items
    (key : string) (info : UserInfo) (type title describe imageUrl : option string)
    (s : Store) :
  (type <> Some "lost" -> type <> Some "found" ->
   post (LoginUser key info) type title describe imageUrl s
   = (Throw (ThrowStr "事务类型不正确"), s))
  /\ (type = Some "lost" \/ type = Some "found" ->
      title = None \/ title = Some "" ->
      post (LoginUser key info) type title describe imageUrl s
      = (Throw (ThrowStr "必须指定物品名称"), s))
  /\ (type = Some "lost" \/ type = Some "found" ->
      (exists t, title = Some t /\ t <> "") ->
      ~ own_image imageUrl (u_cardnum info) ->
      post (LoginUser key info) type title describe imageUrl s
      = (Throw (ThrowStr "图片不合法"), s)).
Proof.
  assert (Hbad : type <> Some "lost" -> type <> Some "found" -> bad_type type = true).
  { intros H1 H2. unfold bad_type. destruct type as [t|]; [|reflexivity].
    destruct (t =? "lost")%string eqn:E1; [apply String.eqb_eq in E1; now subst|].
    destruct (t =? "found")%string eqn:E2; [apply String.eqb_eq in E2; now subst|].
    reflexivity. }
  assert (Hgood : type = Some "lost" \/ type = Some "found" -> bad_type type = false).
  { intros [-> | ->]; reflexivity. }
  unfold post, rbind. rewrite cardnum_of_login.
  split; [|split].
  - intros H1 H2. now rewrite (Hbad H1 H2).
  - intros Ht [-> | ->]; now rewrite (Hgood Ht).
  - intros Ht (t & -> & Hne) Himg. rewrite (Hgood Ht), (truthy_true t Hne).
    destruct t as [|c t]; [contradiction|]. cbn [negb orb String.length].
    replace (Z.of_nat (S (String.length t)) <=? 0) with false by (symmetry; apply Z.leb_gt; lia).
    destruct (foreign_image imageUrl (u_cardnum info)) eqn:E; [reflexivity|].
    apply foreign_image_false_iff in E. contradiction.
Qed.

(** [post] of a valid item sends one insert whose row carries the
    caller's card number as creator, the title, the current time, the
    description and image (empty when not given), the type, and zero for
    both the audited and the finished flag; the reply depends only on
    whether a row was affected. *)
Theorem post_files_the_item_under_the_callers_card_number
    (key : string) (info : UserInfo) (t ti : string) (describe imageUrl : option string)
    (result : DbResult) (s : Store) :
  t = "lost" \/ t = "found" ->
  ti <> "" ->
  own_image imageUrl (u_cardnum info) ->
  db_answer (sent s)
            (InsertMany [[CStr (u_cardnum info); CStr ti; CNum (now s);
                          given_or describe (CStr ""); given_or imageUrl (CStr "");
                          CStr t; CNum 0; CNum 0]])
  = Ok result ->
  post (LoginUser key info) (Some t) (Some ti) describe imageUrl s
  = (if rowsAffected result >? 0 then Ok (ReplyText "提交成功")
     else Throw (ThrowStr "提交失败"),
     after (InsertMany [[CStr (u_cardnum info); CStr ti; CNum (now s);
                         given_or describe (CStr ""); given_or imageUrl (CStr "");
                         CStr t; CNum 0; CNum 0]]) s).
Proof.
  intros Ht Hne Himg Hins.
  apply foreign_image_false_iff in Himg.
  unfold post, rbind. rewrite cardnum_of_login.
  replace (bad_type (Some t)) with false by (destruct Ht as [-> | ->]; reflexivity).
  rewrite (truthy_true ti Hne), Himg.
  destruct ti as [|c ti]; [contradiction|]. cbn [negb orb String.length].
  replace (Z.of_nat (S (String.length ti)) <=? 0) with false by (symmetry; apply Z.leb_gt; lia).
  unfold moment, execute. cbn. rewrite Hins. cbn.
  destruct (rowsAffected result >? 0); reflexivity.
Qed.

(** [put] changes any item that is neither audited nor finished, whoever
    created it: the handler never looks at [creator]. The old image files
    go to [deleteFile] first, then one update is sent, with the title and
    description of the request where given and those of the stored row
    otherwise. *)
Theorem put_changes_any_open_item_whoever_created_it
    (key : string) (info : UserInfo) (id title describe imageUrl : option string)
    (first : list Cell) (others : list (list Cell)) (affected : Z)
    (result : DbResult) (s : Store) :
  db_answer (sent s) (SelectById (interpolate id))
  = Ok (mkDbResult (first :: others) affected) ->
  cell_truthy (nth 8 first CUndefined) = false ->
  cell_truthy (nth 7 first CUndefined) = false ->
  own_image imageUrl (u_cardnum info) ->
  string_or_falsy (nth 5 first CUndefined) = true ->
  db_answer (sent s ++ [SelectById (interpolate id)])
            (UpdateById (interpolate id) (image_literal imageUrl) (now s)
                        (given_or title (nth 2 first CUndefined))
                        (given_or describe (nth 4 first CUndefined)))
  = Ok result ->
  put (LoginUser key info) id title describe imageUrl s
  = (if rowsAffected result >? 0 then Ok (ReplyText "修改成功")
     else Throw (ThrowStr "修改失败"),
     after (UpdateById (interpolate id) (image_literal imageUrl) (now s)
                       (given_or title (nth 2 first CUndefined))
                       (given_or describe (nth 4 first CUndefined)))
           (without (image_files (nth 5 first CUndefined))
                    (after (SelectById (interpolate id)) s))).
Proof.
  intros Hsel Hfin Haud Himg Hold Hupd.
  apply foreign_image_false_iff in Himg.
  unfold put, rbind. rewrite cardnum_of_login. unfold execute at 1. rewrite Hsel. cbn.
  rewrite Himg, Hfin, Haud. cbn.
  rewrite (delete_images_runs _ _ Hold). unfold moment, execute. cbn.
  rewrite Hupd. cbn.
  destruct (rowsAffected result >? 0); reflexivity.
Qed.

(** [put] refuses, after the lookup and before anything is deleted or
    updated: first a foreign image, even for an id that does not exist;
    then a missing item; then an item that is audited or finished. *)
Theorem put_refuses_foreign_images_missing_and_closed_items
    (key : string) (info : UserInfo) (id title describe imageUrl : option string)
    (found : DbResult) (s : Store) :
  db_answer (sent s) (SelectById (interpolate id)) = Ok found ->
  (~ own_image imageUrl (u_cardnum info) ->
   put (LoginUser key info) id title describe imageUrl s
   = (Throw (ThrowStr "图片不合法"), after (SelectById (interpolate id)) s))
  /\ (own_image imageUrl (u_cardnum info) ->
      rows found = [] ->
      put (LoginUser key info) id title describe imageUrl s
      = (Throw (ThrowStr "待修改事务不存在"), after (SelectById (interpolate id)) s))
  /\ (own_image imageUrl (u_cardnum info) ->
      forall first others,
        rows found = first :: others ->
        cell_truthy (nth 8 first CUndefined) = true
        \/ cell_truthy (nth 7 first CUndefined) = true ->
        put (LoginUser key info) id title describe imageUrl s
        = (Throw (ThrowStr "不能修改已审核或者已标记完成的事务"),
           after (SelectById (interpolate id)) s)).
Proof.
  intros Hsel.
  split; [|split].
  - intros Himg.
    unfold put, rbind. rewrite cardnum_of_login. unfold execute at 1. rewrite Hsel.
    destruct (foreign_image imageUrl (u_cardnum info)) eqn:E; [reflexivity|].
    apply foreign_image_false_iff in E. contradiction.
  - intros Himg Hrows. apply foreign_image_false_iff in Himg.
    unfold put, rbind. rewrite cardnum_of_login. unfold execute at 1. rewrite Hsel.
    now rewrite Himg, Hrows.
  - intros Himg first others Hrows Hclosed. apply foreign_image_false_iff in Himg.
    unfold put, rbind. rewrite cardnum_of_login. unfold execute at 1. rewrite Hsel.
    rewrite Himg, Hrows. cbn.
    replace (cell_truthy (nth 8 first CUndefined) || cell_truthy (nth 7 first CUndefined))
      with true; [reflexivity|].
    symmetry. apply orb_true_iff. exact Hclosed.
Qed.

(** [get] with an id looks that one item up and ignores [type], [page]
    and [pagesize]: the item comes back with [canAudit] set exactly for an
    administrator; when nothing is found an ordinary user gets
    [undefined] and an administrator a [TypeError]. *)
Theorem get_by_id_marks_the_item_for_administrators_only
    (key : string) (info : UserInfo) (id : string) (type : option string)
    (page pagesize : Param) (found : DbResult) (s : Store) :
  id <> "" ->
  db_answer (sent s) (SelectById id) = Ok found ->
  get (LoginUser key info) (Some id) type page pagesize s
  = (match rows found with
     | first :: _ => Ok (ReplyItem (item_of_row (is_admin (u_cardnum info)) first))
     | [] => if is_admin (u_cardnum info) then Throw (ThrowError "TypeError")
             else Ok ReplyUndefined
     end,
     after (SelectById id) s).
Proof.
  intros Hne Hsel.
  unfold get, rbind. rewrite cardnum_of_login, (truthy_true id Hne).
  unfold execute. rewrite Hsel. cbn.
  destruct (rows found) as [|first others]; cbn;
    destruct (is_admin (u_cardnum info)); reflexivity.
Qed.

(** The audit listing is for administrators: anyone else gets an empty
    list and nothing is asked of the database; an administrator gets the
    page asked for, every item marked [canAudit]. The page is the rows
    above [(page - 1) * pagesize] up to [page * pagesize], computed in
    doubles from the parameters after unary plus, [1] and [10] standing in
    for missing ones. *)
Theorem get_audit_listing_is_for_administrators
    (key : string) (info : UserInfo) (id : option string)
    (page pagesize : Param) (s : Store) :
  id = None \/ id = Some "" ->
  (~ In (u_cardnum info) adminList ->
   get (LoginUser key info) id (Some "audit") page pagesize s = (Ok (ReplyItems []), s))
  /\ (In (u_cardnum info) adminList ->
      forall found,
        db_answer (sent s)
                  (SelectPage Audit
                     ((unary_plus page 1 - 1) * unary_plus pagesize 10)%float
                     (unary_plus page 1 * unary_plus pagesize 10)%float)
        = Ok found ->
        get (LoginUser key info) id (Some "audit") page pagesize s
        = (Ok (ReplyItems (map (item_of_row true) (rows found))),
           after (SelectPage Audit
                    ((unary_plus page 1 - 1) * unary_plus pagesize 10)%float
                    (unary_plus page 1 * unary_plus pagesize 10)%float) s)).
Proof.
  intros Hid.
  assert (Hfalsy : truthy (match id with Some i => i | None => "" end) = false)
    by (destruct Hid as [-> | ->]; reflexivity).
  unfold get, rbind. rewrite cardnum_of_login, Hfalsy. cbn.
  split.
  - intros Hadmin.
    destruct (is_admin (u_cardnum info)) eqn:E; [|reflexivity].
    apply is_admin_iff in E. contradiction.
  - intros Hadmin found Hsel. apply is_admin_iff in Hadmin. rewrite Hadmin. cbn.
    unfold execute, page_above, page_upTo. now rewrite Hsel.
Qed.

End RouteProperties.

(** ** The route on the demo site *)

Lemma stranger_cannot_delete_on_demo :
  @LostAndFound.db_answer LostAndFound.demo_site [] (LostAndFound.SelectById "w1")
  = Ok (LostAndFound.mkDbResult [LostAndFound.demo_row] 0)
  /\ @LostAndFound.delete LostAndFound.demo_site (LostAndFound.visitor "213000002")
                          (Some "w1") LostAndFound.fresh
     = (Throw (ThrowNum 401),
        LostAndFound.mkStore [LostAndFound.SelectById "w1"] [] 5000).
Proof.
  split; [reflexivity|].
  apply (@delete_needs_the_creator_or_an_administrator LostAndFound.demo_site
           "t" (LostAndFound.visitor_info "213000002") (Some "w1") LostAndFound.demo_row [] 0 LostAndFound.fresh eq_refl).
  - discriminate.
  - cbn. intros [H | []]. discriminate H.
Defined.

Lemma creator_deletes_on_demo :
  @LostAndFound.delete LostAndFound.demo_site (LostAndFound.visitor "213000001")
                       (Some "w1") LostAndFound.fresh
  = (Ok (LostAndFound.ReplyText "删除成功"),
     LostAndFound.mkStore [LostAndFound.SelectById "w1"; LostAndFound.DeleteById "w1"]
                          ["lf-213000001-a.jpg"; "lf-213000001-b.jpg"] 5000).
Proof.
  apply (@delete_by_creator_or_administrator_removes_item_and_images LostAndFound.demo_site
           "t" (LostAndFound.visitor_info "213000001") (Some "w1") LostAndFound.demo_row [] 0 (LostAndFound.mkDbResult [] 1)
           LostAndFound.fresh eq_refl (or_introl eq_refl) eq_refl eq_refl).
Defined.

Lemma missing_item_on_demo :
  @LostAndFound.delete LostAndFound.demo_site (LostAndFound.visitor "213000001")
                       (Some "w2") LostAndFound.fresh
  = (Throw (ThrowError "TypeError"),
     LostAndFound.mkStore [LostAndFound.SelectById "w2"] [] 5000).
Proof.
  apply (proj1 (@delete_of_a_missing_item_raises_a_TypeError LostAndFound.demo_site
                  (LostAndFound.visitor "213000001") (Some "w2") LostAndFound.fresh)
               "t" (LostAndFound.visitor_info "213000001") 0 eq_refl eq_refl).
Defined.

Lemma invalid_posts_on_demo :
  fst (@LostAndFound.post LostAndFound.demo_site (LostAndFound.visitor "213000001")
                          (Some "stolen") (Some "umbrella") None None LostAndFound.fresh)
  = Throw (ThrowStr "事务类型不正确")
  /\ fst (@LostAndFound.post LostAndFound.demo_site (LostAndFound.visitor "213000001")
                             (Some "lost") (Some "") None None LostAndFound.fresh)
     = Throw (ThrowStr "必须指定物品名称").
Proof.
  unfold LostAndFound.visitor. split.
  - rewrite (proj1 (@post_refuses_invalid_items LostAndFound.demo_site "t" (LostAndFound.visitor_info "213000001")
                      (Some "stolen") (Some "umbrella") None None LostAndFound.fresh));
      [reflexivity | discriminate | discriminate].
  - rewrite (proj1 (proj2 (@post_refuses_invalid_items LostAndFound.demo_site "t" (LostAndFound.visitor_info "213000001")
                             (Some "lost") (Some "") None None LostAndFound.fresh))
                   (or_introl eq_refl) (or_intror eq_refl)).
    reflexivity.
Defined.

Lemma valid_post_on_demo :
  @LostAndFound.post LostAndFound.demo_site (LostAndFound.visitor "213000001")
                     (Some "found") (Some "keys") None (Some "img/lf-213000001-k.jpg")
                     LostAndFound.fresh
  = (Ok (LostAndFound.ReplyText "提交成功"),
     LostAndFound.mkStore
       [LostAndFound.InsertMany
          [[LostAndFound.CStr "213000001"; LostAndFound.CStr "keys"; LostAndFound.CNum 5000;
            LostAndFound.CStr ""; LostAndFound.CStr "img/lf-213000001-k.jpg";
            LostAndFound.CStr "found"; LostAndFound.CNum 0; LostAndFound.CNum 0]]]
       [] 5000).
Proof.
  apply (@post_files_the_item_under_the_callers_card_number LostAndFound.demo_site
           "t" (LostAndFound.visitor_info "213000001") "found" "keys" None (Some "img/lf-213000001-k.jpg")
           (LostAndFound.mkDbResult [] 1) LostAndFound.fresh (or_intror eq_refl)).
  - discriminate.
  - right. exists 4%nat. reflexivity.
  - reflexivity.
Defined.

Lemma stranger_edits_on_demo :
  @LostAndFound.put LostAndFound.demo_site (LostAndFound.visitor "213000002")
                    (Some "w1") (Some "mine now") None None LostAndFound.fresh
  = (Ok (LostAndFound.ReplyText "修改成功"),
     LostAndFound.mkStore
       [LostAndFound.SelectById "w1";
        LostAndFound.UpdateById "w1" None 5000 (LostAndFound.CStr "mine now")
                                (LostAndFound.CStr "black")]
       ["lf-213000001-a.jpg"; "lf-213000001-b.jpg"] 5000).
Proof.
  apply (@put_changes_any_open_item_whoever_created_it LostAndFound.demo_site
           "t" (LostAndFound.visitor_info "213000002") (Some "w1") (Some "mine now") None None LostAndFound.demo_row [] 0
           (LostAndFound.mkDbResult [] 1) LostAndFound.fresh
           eq_refl eq_refl eq_refl I eq_refl eq_refl).
Defined.

Lemma foreign_image_on_demo :
  @LostAndFound.db_answer LostAndFound.demo_site [] (LostAndFound.SelectById "w2")
  = Ok (LostAndFound.mkDbResult [] 0)
  /\ fst (@LostAndFound.put LostAndFound.demo_site (LostAndFound.visitor "213000002")
                            (Some "w2") None None (Some "lf-213000001-a.jpg")
                            LostAndFound.fresh)
     = Throw (ThrowStr "图片不合法").
Proof.
  split; [reflexivity|]. unfold LostAndFound.visitor.
  rewrite (proj1 (@put_refuses_foreign_images_missing_and_closed_items LostAndFound.demo_site
                    "t" (LostAndFound.visitor_info "213000002") (Some "w2") None None (Some "lf-213000001-a.jpg")
                    (LostAndFound.mkDbResult [] 0) LostAndFound.fresh eq_refl)).
  - reflexivity.
  - intros H. apply (proj2 (foreign_image_false_iff _ _)) in H. discriminate H.
Defined.

Lemma get_by_id_on_demo :
  "w1" <> ""
  /\ @LostAndFound.get LostAndFound.demo_site (LostAndFound.visitor "213009999")
                       (Some "w1") (Some "audit") LostAndFound.PUndefined
                       LostAndFound.PUndefined LostAndFound.fresh
     = (Ok (LostAndFound.ReplyItem (LostAndFound.item_of_row true LostAndFound.demo_row)),
        LostAndFound.mkStore [LostAndFound.SelectById "w1"] [] 5000).
Proof.
  split; [discriminate|].
  apply (@get_by_id_marks_the_item_for_administrators_only LostAndFound.demo_site
           "t" (LostAndFound.visitor_info "213009999") "w1" (Some "audit")
           LostAndFound.PUndefined LostAndFound.PUndefined
           (LostAndFound.mkDbResult [LostAndFound.demo_row] 0) LostAndFound.fresh).
  - discriminate.
  - reflexivity.
Defined.

Lemma audit_listing_on_demo :
  @LostAndFound.get LostAndFound.demo_site (LostAndFound.visitor "213000001")
                    None (Some "audit") LostAndFound.PUndefined LostAndFound.PUndefined
                    LostAndFound.fresh
  = (Ok (LostAndFound.ReplyItems []), LostAndFound.fresh)
  /\ @LostAndFound.get LostAndFound.demo_site (LostAndFound.visitor "213009999")
                       None (Some "audit") (LostAndFound.PNumber 2.5%float)
                       LostAndFound.PUndefined LostAndFound.fresh
     = (Ok (LostAndFound.ReplyItems [LostAndFound.item_of_row true LostAndFound.demo_row]),
        LostAndFound.mkStore [LostAndFound.SelectPage LostAndFound.Audit 15%float 25%float]
                             [] 5000).
Proof.
  split.
  - apply (proj1 (@get_audit_listing_is_for_administrators LostAndFound.demo_site
                    "t" (LostAndFound.visitor_info "213000001") None
                    LostAndFound.PUndefined LostAndFound.PUndefined
                    LostAndFound.fresh (or_introl eq_refl))).
    cbn. intros [H | []]. discriminate H.
  - apply (proj2 (@get_audit_listing_is_for_administrators LostAndFound.demo_site
                    "t" (LostAndFound.visitor_info "213009999") None
                    (LostAndFound.PNumber 2.5%float) LostAndFound.PUndefined
                    LostAndFound.fresh (or_introl eq_refl))
                 (or_introl eq_refl) (LostAndFound.mkDbResult [LostAndFound.demo_row] 0)
                 eq_refl).
Defined.

Lemma guests_on_demo :
  @LostAndFound.delete LostAndFound.demo_site GuestUser (Some "w1") LostAndFound.fresh
  = (Throw (ThrowNum 401), LostAndFound.fresh).
Proof.
  exact (proj2 (proj2 (proj2 (@guest_is_turned_away_by_every_handler LostAndFound.demo_site
                                (Some "w1") None None None None
                                LostAndFound.PUndefined LostAndFound.PUndefined
                                LostAndFound.fresh)))).
Defined.

Lemma rejected_relogin_on_demo :
  login_request Demo.relogin_new_gpassword "app"
  /\ auth_table (snd (@module_exports Demo.crypto Demo.rejecting Demo.relogin_new_gpassword
                                      Demo.done Demo.after_first_login))
     = [Demo.stored_row]
  /\ fst (@module_exports Demo.crypto Demo.rejecting Demo.relogin_new_gpassword
                          Demo.done Demo.after_first_login)
     = Throw (ThrowNum 401).
Proof.
  assert (Hreq : login_request Demo.relogin_new_gpassword "app")
    by (repeat split; discriminate).
  split; [exact Hreq|].
  destruct (@login_that_upstream_rejects_never_writes Demo.crypto Demo.rejecting
              Demo.relogin_new_gpassword Demo.done "app" Demo.after_first_login
              eq_refl Hreq (or_introl eq_refl)) as [Htab _].
  split; [rewrite Htab; vm_compute; reflexivity | vm_compute; reflexivity].
Defined.
